(** * wharfkit/msigs: the multisig-proposal service client

    A shallow embedding of the client class [MsigsClient] and of the helper
    [getPaginationInfo], together with the properties of the package's
    specification that concern them.

    Conventions of the embedding.

    - A JavaScript [number] is an IEEE-754 double.  The helper
      [getPaginationInfo] is embedded twice: [Double.getPaginationInfo]
      computes on doubles as the source does, for every input;
      [getPaginationInfo] computes on [Z] and stands for it on the safe
      integers ([safe]: at most 2^53 - 1 in absolute value), where the
      double operations the helper uses are exact.  Statements about the
      integer embedding assume safe inputs unless they hold on doubles of
      any size; [agree_on_samples] evaluates both embeddings on a grid of
      safe inputs.  The ceilings, limits and offsets of the client are
      integers, modelled as [Z].
    - [undefined] for an optional field or argument is [None].
    - The conversions [Name.from], [UInt64.from] and [Int32.from] belong to
      the library @wharfkit/antelope, which is not part of the package.
      The parameter map records which conversion was applied to which
      caller value, as a constructor of [wire].  [Int32.from] and
      [UInt64.from] throw on the values they reject; what they reject is
      the parameter [antelope] of the embedding.
    - An [async] method is a computation that threads the client's fields
      and the transport's log of requests, and ends in a returned value or a
      thrown exception; [await] is sequencing.  Calls are run one after the
      other, each to completion. *)

From Stdlib Require Import ZArith QArith Qround String List Lia Bool DecimalString.
From Stdlib Require Import Floats Uint63.
From stdpp Require Import base gmap strings.

Local Open Scope string_scope.
Local Open Scope Z_scope.

Definition number := Z.

(** ** Pagination helper *)

Module PaginationInfo.
Record t := mk {
  currentPage : number;
  pageSize : number;
  totalResults : number;
  totalPages : number;
  hasMore : bool;
  hasPrevious : bool;
  nextOffset : option number;
  previousOffset : option number;
}.
End PaginationInfo.

(** [Math.floor (a / b)] on safe integers with [b <> 0]: [Z.div] rounds
    towards minus infinity. *)
Definition Math_floor_div (a b : number) : number := a / b.

(** [Math.ceil (a / b)] on safe integers with [b <> 0]. *)
Definition Math_ceil_div (a b : number) : number := - ((- a) / b).

Definition Math_max (a b : number) : number := Z.max a b.

Definition getPaginationInfo (offset limit total : number) (more : bool)
  : PaginationInfo.t :=
  let currentPage := Math_floor_div offset limit + 1 in
  let totalPages := Math_ceil_div total limit in
  let hasMore := more in
  let hasPrevious := 0 <? offset in
  {| PaginationInfo.currentPage := currentPage;
     PaginationInfo.pageSize := limit;
     PaginationInfo.totalResults := total;
     PaginationInfo.totalPages := totalPages;
     PaginationInfo.hasMore := hasMore;
     PaginationInfo.hasPrevious := hasPrevious;
     PaginationInfo.nextOffset :=
       if hasMore then Some (offset + limit) else None;
     PaginationInfo.previousOffset :=
       if hasPrevious then Some (Math_max 0 (offset - limit)) else None |}.

(** [Number.isSafeInteger]: an integer every double operation the helper
    performs on it is exact for. *)
Definition safe (n : number) : Prop := - (2 ^ 53 - 1) <= n <= 2 ^ 53 - 1.

(** ** The pagination helper on doubles *)

Module Double.

Record PaginationInfo := mk {
  currentPage : float;
  pageSize : float;
  totalResults : float;
  totalPages : float;
  hasMore : bool;
  hasPrevious : bool;
  nextOffset : option float;
  previousOffset : option float;
}.

(** The double nearest to an integer (the integer itself up to 2^53). *)
Definition of_Z (z : Z) : float :=
  if z <? 0 then PrimFloat.opp (PrimFloat.of_uint63 (Uint63.of_Z (- z)))
  else PrimFloat.of_uint63 (Uint63.of_Z z).

(** [Math.floor]: a double with a non-negative exponent is an integer
    already; otherwise the floor of mantissa * 2^exponent.  Zeros,
    infinities and NaN are returned as they are. *)
Definition Math_floor (x : float) : float :=
  match Prim2SF x with
  | S754_finite s m e =>
      if 0 <=? e then x
      else of_Z ((if s then Z.neg m else Z.pos m) / 2 ^ (- e))
  | _ => x
  end.

(** [Math.ceil (x)] is [- Math.floor (- x)]. *)
Definition Math_ceil (x : float) : float :=
  PrimFloat.opp (Math_floor (PrimFloat.opp x)).

(** [Math.max] of two doubles: NaN if either is, and +0 above -0. *)
Definition Math_max (x y : float) : float :=
  if PrimFloat.is_nan x then x
  else if PrimFloat.is_nan y then y
  else if PrimFloat.ltb x y then y
  else if PrimFloat.ltb y x then x
  else if PrimFloat.get_sign x then y
  else x.

Definition getPaginationInfo (offset limit total : float) (more : bool)
  : PaginationInfo :=
  let currentPage :=
    PrimFloat.add (Math_floor (PrimFloat.div offset limit)) (of_Z 1) in
  let totalPages := Math_ceil (PrimFloat.div total limit) in
  let hasMore := more in
  let hasPrevious := PrimFloat.ltb (of_Z 0) offset in
  {| currentPage := currentPage;
     pageSize := limit;
     totalResults := total;
     totalPages := totalPages;
     hasMore := hasMore;
     hasPrevious := hasPrevious;
     nextOffset :=
       if hasMore then Some (PrimFloat.add offset limit) else None;
     previousOffset :=
       if hasPrevious
       then Some (Math_max (of_Z 0) (PrimFloat.sub offset limit))
       else None |}.

(** The integer a double holds, if it holds one. *)
Definition to_Z (x : float) : option Z :=
  match Prim2SF x with
  | S754_zero _ => Some 0
  | S754_finite s m e =>
      let z := if s then Z.neg m else Z.pos m in
      if 0 <=? e then Some (z * 2 ^ e)
      else if z mod 2 ^ (- e) =? 0 then Some (z / 2 ^ (- e))
      else None
  | _ => None
  end.

Definition to_Z_option (x : option float) : option (option Z) :=
  match x with
  | Some y => match to_Z y with Some z => Some (Some z) | None => None end
  | None => Some None
  end.

End Double.

(** The result on doubles read as a result on integers, when all its
    numbers are integers. *)
Definition integers (d : Double.PaginationInfo) : option PaginationInfo.t :=
  match Double.to_Z (Double.currentPage d), Double.to_Z (Double.pageSize d),
        Double.to_Z (Double.totalResults d), Double.to_Z (Double.totalPages d),
        Double.to_Z_option (Double.nextOffset d),
        Double.to_Z_option (Double.previousOffset d) with
  | Some c, Some s, Some r, Some t, Some n, Some p =>
      Some {| PaginationInfo.currentPage := c;
              PaginationInfo.pageSize := s;
              PaginationInfo.totalResults := r;
              PaginationInfo.totalPages := t;
              PaginationInfo.hasMore := Double.hasMore d;
              PaginationInfo.hasPrevious := Double.hasPrevious d;
              PaginationInfo.nextOffset := n;
              PaginationInfo.previousOffset := p |}
  | _, _, _, _, _, _ => None
  end.

Definition option_eqb (x y : option Z) : bool :=
  match x, y with
  | Some a, Some b => a =? b
  | None, None => true
  | _, _ => false
  end.

Definition PaginationInfo_eqb (p q : PaginationInfo.t) : bool :=
  (PaginationInfo.currentPage p =? PaginationInfo.currentPage q)
  && (PaginationInfo.pageSize p =? PaginationInfo.pageSize q)
  && (PaginationInfo.totalResults p =? PaginationInfo.totalResults q)
  && (PaginationInfo.totalPages p =? PaginationInfo.totalPages q)
  && Bool.eqb (PaginationInfo.hasMore p) (PaginationInfo.hasMore q)
  && Bool.eqb (PaginationInfo.hasPrevious p) (PaginationInfo.hasPrevious q)
  && option_eqb (PaginationInfo.nextOffset p) (PaginationInfo.nextOffset q)
  && option_eqb (PaginationInfo.previousOffset p)
       (PaginationInfo.previousOffset q).

(** The two embeddings give the same result at an input. *)
Definition agree (offset limit total : Z) (more : bool) : bool :=
  match integers (Double.getPaginationInfo (Double.of_Z offset)
                    (Double.of_Z limit) (Double.of_Z total) more) with
  | Some d => PaginationInfo_eqb d (getPaginationInfo offset limit total more)
  | None => false
  end.

Definition safeb (n : Z) : bool := (- (2 ^ 53 - 1) <=? n) && (n <=? 2 ^ 53 - 1).

(** The inputs the statements about the integer embedding are for. *)
Definition safe_input (offset limit total : Z) (more : bool) : bool :=
  (0 <? limit) && safeb offset && safeb limit && safeb total
  && (negb more || safeb (offset + limit)).

Definition sample_numbers : list Z :=
  [ - (2 ^ 53 - 1); - (2 ^ 52 + 1); -101; -3; -1; 0; 1; 2; 3; 7; 10;
    2 ^ 31; 2 ^ 52 + 1; 2 ^ 53 - 2; 2 ^ 53 - 1 ].

(** The embeddings agree at every safe input made of the sample numbers. *)
Definition agree_on_samples : bool :=
  forallb (fun offset =>
    forallb (fun limit =>
      forallb (fun total =>
        forallb (fun more =>
          implb (safe_input offset limit total more)
                (agree offset limit total more))
          [true; false])
        sample_numbers)
      sample_numbers)
    sample_numbers.

(** ** Wire values, requests and the transport *)

Definition NameType := string.
(** A [UInt64Type] given as a JavaScript number. *)
Definition UInt64Type := Z.

(** A value of the parameter map: a caller value under the conversion the
    client applied to it, or passed as it is.  [Int32_from n] and
    [UInt64_from n] are what [Int32.from (n)] and [UInt64.from (n)] yield
    when they do not throw. *)
Inductive wire :=
| Name_from (value : NameType)
| UInt64_from (value : UInt64Type)
| Int32_from (value : number)
| str (value : string)
| boolean (value : bool).

(** What the conversions of @wharfkit/antelope reject.  [Int32_throws n]
    is the message of the [Error] that [Int32.from (n)] throws, if it
    throws, and [UInt64_throws n] that of [UInt64.from (n)]. *)
Record Antelope := {
  Int32_throws : number -> option string;
  UInt64_throws : UInt64Type -> option string;
}.

(** The argument of [APIClient.call]. *)
Record Request := { path : string; params : gmap string wire }.

(** [ServiceStatus] of [types.ts]. *)
Module ServiceStatus.
Record t := mk {
  head_block_num : option number;
  last_irreversible_block_num : option number;
  chain_id : option string;
  server_version : option string;
  accepting_http : option bool;
  database_size : option number;
  database_size_mb : option number;
  last_account_action_seq : option number;
  synced : option bool;
  max_proposal_results : option number;
  max_approval_results : option number;
}.
End ServiceStatus.

(** A decoded response.  The client hands it to the caller untouched; the
    only fields it ever reads are those of the [GetStatusResponse] view
    (the cast [as Promise<GetStatusResponse>] checks nothing, and a field
    the payload lacks reads as [undefined]). *)
Record Payload := { json : string; as_status : ServiceStatus.t }.

(** What the transport does with a call: a decoded payload, or a failure of
    its own. *)
Inductive reply :=
| resolved (payload : Payload)
| rejected (reason : string).

(** The injected transport.  Its answer may depend on the requests it has
    already received. *)
Definition APIClient := list Request -> Request -> reply.

(** ** The client's fields and the option bags *)

Module MsigsClientOptions.
Record t := mk {
  maxProposalLimit : option number;
  maxApprovalLimit : option number;
}.
End MsigsClientOptions.

Module GetProposalOptions.
Record t := mk {
  globalseq : option UInt64Type;
  version_history : option bool;
}.
End GetProposalOptions.

Module GetProposalHistoryOptions.
Record t := mk {
  status : option string;
  limit : option number;
  offset : option number;
}.
End GetProposalHistoryOptions.

Module GetProposalsOptions.
Record t := mk {
  proposer : option NameType;
  status : option string;
  limit : option number;
  offset : option number;
}.
End GetProposalsOptions.

Module GetActiveOptions.
Record t := mk {
  limit : option number;
  offset : option number;
  sort_by : option string;
}.
End GetActiveOptions.

Module GetApprovalsOptions.
Record t := mk {
  globalseq : option UInt64Type;
  limit : option number;
  offset : option number;
}.
End GetApprovalsOptions.

Module GetActivityOptions.
Record t := mk {
  limit : option number;
  offset : option number;
  action_type : option string;
}.
End GetActivityOptions.

Module GetApproverProposalsOptions.
Record t := mk {
  status : option string;
  include_approved : option bool;
  limit : option number;
  offset : option number;
}.
End GetApproverProposalsOptions.

Module SearchProposalsOptions.
Record t := mk {
  status : option string;
  limit : option number;
  offset : option number;
}.
End SearchProposalsOptions.

Record MsigsClient := {
  client : APIClient;
  options : option MsigsClientOptions.t;
  maxProposalLimit : option number;
  maxApprovalLimit : option number;
  limitsInitialized : bool;
}.

(** [options && options.f !== undefined], and then [options.f]. *)
Definition field {O A : Type} (options : option O) (f : O -> option A)
  : option A :=
  match options with
  | Some o => f o
  | None => None
  end.

Definition constructor (client : APIClient)
    (options : option MsigsClientOptions.t) : MsigsClient :=
  {| client := client;
     options := options;
     maxProposalLimit := field options MsigsClientOptions.maxProposalLimit;
     maxApprovalLimit := field options MsigsClientOptions.maxApprovalLimit;
     limitsInitialized := false |}.

Definition set_maxProposalLimit (v : option number) (this : MsigsClient)
  : MsigsClient :=
  {| client := client this;
     options := options this;
     maxProposalLimit := v;
     maxApprovalLimit := maxApprovalLimit this;
     limitsInitialized := limitsInitialized this |}.

Definition set_maxApprovalLimit (v : option number) (this : MsigsClient)
  : MsigsClient :=
  {| client := client this;
     options := options this;
     maxProposalLimit := maxProposalLimit this;
     maxApprovalLimit := v;
     limitsInitialized := limitsInitialized this |}.

Definition set_limitsInitialized (v : bool) (this : MsigsClient)
  : MsigsClient :=
  {| client := client this;
     options := options this;
     maxProposalLimit := maxProposalLimit this;
     maxApprovalLimit := maxApprovalLimit this;
     limitsInitialized := v |}.

(** ** Asynchronous computations *)

(** What a method can throw: an [Error] of the client's own, or the
    transport's failure. *)
Inductive exn :=
| Error (message : string)
| transport_error (reason : string).

Inductive outcome (A : Type) :=
| returned (a : A)
| thrown (e : exn).
Arguments returned {A} a.
Arguments thrown {A} e.

(** The state a method runs in: the client object and the requests that
    have reached the transport so far, oldest first. *)
Record World := { this : MsigsClient; sent : list Request }.

Definition async (A : Type) : Type := World -> outcome A * World.

Definition ret {A : Type} (a : A) : async A := fun w => (returned a, w).

Definition throw {A : Type} (e : exn) : async A := fun w => (thrown e, w).

Definition bind {A B : Type} (m : async A) (k : A -> async B) : async B :=
  fun w =>
    match m w with
    | (returned a, w') => k a w'
    | (thrown e, w') => (thrown e, w')
    end.

Definition try_catch {A : Type} (m : async A) (handler : exn -> async A)
  : async A :=
  fun w =>
    match m w with
    | (returned a, w') => (returned a, w')
    | (thrown e, w') => handler e w'
    end.

Definition read {A : Type} (f : MsigsClient -> A) : async A :=
  fun w => (returned (f (this w)), w).

Definition write (f : MsigsClient -> MsigsClient) : async unit :=
  fun w => (returned tt, {| this := f (this w); sent := sent w |}).

Definition when (b : bool) (m : async unit) : async unit :=
  if b then m else ret tt.

Declare Scope async_scope.
Delimit Scope async_scope with async.
Notation "x <- m ;; k" := (bind m (fun x => k))
  (at level 100, m at next level, right associativity) : async_scope.
Notation "m ;; k" := (bind m (fun _ => k))
  (at level 100, right associativity) : async_scope.
Local Open Scope async_scope.

(** [this.client.call(request)]: the request reaches the transport, which
    answers or fails. *)
Definition call (request : Request) : async Payload :=
  fun w =>
    let w' := {| this := this w; sent := sent w ++ [request] |} in
    match client (this w) (sent w) request with
    | resolved payload => (returned payload, w')
    | rejected reason => (thrown (transport_error reason), w')
    end.

(** ** Limit discovery *)

Definition is_undefined {A : Type} (v : option A) : bool :=
  match v with
  | Some _ => false
  | None => true
  end.

(** [v || d] for a number that may be [undefined]: [undefined] and [0] are
    falsy. *)
Definition or_default (v : option number) (d : number) : number :=
  match v with
  | Some n => if n =? 0 then d else n
  | None => d
  end.

Definition get_status : async Payload :=
  call {| path := "/v1/proposals/get_status"; params := ∅ |}.

Definition initializeLimits : async unit :=
  initialized <- read limitsInitialized ;;
  if initialized then ret tt
  else
    proposal <- read maxProposalLimit ;;
    approval <- read maxApprovalLimit ;;
    if negb (is_undefined proposal) && negb (is_undefined approval)
    then write (set_limitsInitialized true)
    else
      try_catch
        (response <- get_status ;;
         let status := as_status response in
         proposal <- read maxProposalLimit ;;
         when (is_undefined proposal)
           (write (set_maxProposalLimit
              (Some (or_default (ServiceStatus.max_proposal_results status) 20)))) ;;
         approval <- read maxApprovalLimit ;;
         when (is_undefined approval)
           (write (set_maxApprovalLimit
              (Some (or_default (ServiceStatus.max_approval_results status) 100)))) ;;
         write (set_limitsInitialized true))
        (fun error =>
         proposal <- read maxProposalLimit ;;
         when (is_undefined proposal)
           (write (set_maxProposalLimit (Some 20))) ;;
         approval <- read maxApprovalLimit ;;
         when (is_undefined approval)
           (write (set_maxApprovalLimit (Some 100))) ;;
         write (set_limitsInitialized true)).

(** The getters return the field as it stands ([this.maxProposalLimit!]
    asserts, and does not check, that it is defined). *)
Definition getMaxProposalLimit : async (option number) :=
  initializeLimits ;;
  read maxProposalLimit.

Definition getMaxApprovalLimit : async (option number) :=
  initializeLimits ;;
  read maxApprovalLimit.

(** ** Building requests *)

(** [String(n)] for an integer below 10^21 in absolute value: its decimal
    digits, with a minus sign when negative.  From 10^21 on JavaScript
    prints exponent notation; statements that spell a number out bound it
    by 10^21. *)
Definition number_to_string (n : number) : string :=
  NilZero.string_of_int (Z.to_int n).

(** [`${v}`] for a field that may be [undefined]. *)
Definition template (v : option number) : string :=
  match v with
  | Some n => number_to_string n
  | None => "undefined"
  end.

(** [limit > ceiling]; a comparison with [undefined] is false. *)
Definition exceeds (limit : number) (ceiling : option number) : bool :=
  match ceiling with
  | Some c => c <? limit
  | None => false
  end.

(** [if (v !== undefined) params[key] = v]. *)
Definition assign (key : string) (v : option wire)
    (params : gmap string wire) : gmap string wire :=
  match v with
  | Some x => <[key := x]> params
  | None => params
  end.

(** ** The debug operation *)

Module DebugProposalOptions.
Record t := mk {
  globalseq : option UInt64Type;
}.
End DebugProposalOptions.

(** Modelled from the spec: the debug operation of the client.  The
    class as embedded here does not contain it; test/api.ts calls it as
    [debug_proposal], README.md documents it and types.ts declares its
    response.  The specification gives it the required
    proposer and proposal name, an optional version sequence number, no
    limit, and a fixed path under /v1/proposals/; the last segment of the
    path is taken from the method's name, as for every method of the
    class. *)
Definition debug_proposal (proposer proposalName : NameType)
    (options : option DebugProposalOptions.t) : async Payload :=
  let params : gmap string wire :=
    <["proposal_name" := Name_from proposalName]>
      (<["proposer" := Name_from proposer]> ∅) in
  let params :=
    assign "globalseq"
      (UInt64_from <$> field options DebugProposalOptions.globalseq) params in
  call {| path := "/v1/proposals/debug_proposal"; params := params |}.

(** ** The operations *)

Section Client.

(** The library the client is linked with. *)
Variable antelope : Antelope.

(** [Int32.from (n)]. *)
Definition to_Int32 (n : number) : async wire :=
  match Int32_throws antelope n with
  | Some message => throw (Error message)
  | None => ret (Int32_from n)
  end.

(** [UInt64.from (n)]. *)
Definition to_UInt64 (n : UInt64Type) : async wire :=
  match UInt64_throws antelope n with
  | Some message => throw (Error message)
  | None => ret (UInt64_from n)
  end.

(** [if (v !== undefined) params[key] = convert (v)], for a conversion
    that may throw. *)
Definition assign_converted {A : Type} (key : string)
    (convert : A -> async wire) (v : option A) (params : gmap string wire)
  : async (gmap string wire) :=
  match v with
  | Some x => y <- convert x ;; ret (<[key := y]> params)
  | None => ret params
  end.

(** The block every limit-accepting method repeats, with the field it
    reads as [ceiling]:
<<
    if (options && options.limit !== undefined) {
        await this.initializeLimits()
        if (options.limit > this.ceiling!) {
            throw new Error(`Limit cannot exceed ${this.ceiling}`)
        }
        params['limit'] = Int32.from(options.limit)
    }
>> *)
Definition assign_limit (ceiling : MsigsClient -> option number)
    (limit : option number) (params : gmap string wire)
  : async (gmap string wire) :=
  match limit with
  | Some l =>
      initializeLimits ;;
      max <- read ceiling ;;
      if exceeds l max
      then throw (Error ("Limit cannot exceed " +:+ template max))
      else (v <- to_Int32 l ;; ret (<["limit" := v]> params))
  | None => ret params
  end.

Definition get_proposal (proposer proposalName : NameType)
    (options : option GetProposalOptions.t) : async Payload :=
  let params : gmap string wire :=
    <["proposal_name" := Name_from proposalName]>
      (<["proposer" := Name_from proposer]> ∅) in
  params <- assign_converted "globalseq" to_UInt64
              (field options GetProposalOptions.globalseq) params ;;
  let params :=
    assign "version_history"
      (boolean <$> field options GetProposalOptions.version_history) params in
  call {| path := "/v1/proposals/get_proposal"; params := params |}.

Definition get_proposal_history (proposer proposalName : NameType)
    (options : option GetProposalHistoryOptions.t) : async Payload :=
  let params : gmap string wire :=
    <["proposal_name" := Name_from proposalName]>
      (<["proposer" := Name_from proposer]> ∅) in
  let params :=
    assign "status"
      (str <$> field options GetProposalHistoryOptions.status) params in
  params <- assign_limit maxProposalLimit
              (field options GetProposalHistoryOptions.limit) params ;;
  params <- assign_converted "offset" to_Int32
              (field options GetProposalHistoryOptions.offset) params ;;
  call {| path := "/v1/proposals/get_proposal_history"; params := params |}.

Definition get_proposals (options : option GetProposalsOptions.t)
  : async Payload :=
  let params : gmap string wire := ∅ in
  let params :=
    assign "proposer"
      (Name_from <$> field options GetProposalsOptions.proposer) params in
  let params :=
    assign "status"
      (str <$> field options GetProposalsOptions.status) params in
  params <- assign_limit maxProposalLimit
              (field options GetProposalsOptions.limit) params ;;
  params <- assign_converted "offset" to_Int32
              (field options GetProposalsOptions.offset) params ;;
  call {| path := "/v1/proposals/get_proposals"; params := params |}.

Definition get_active (options : option GetActiveOptions.t)
  : async Payload :=
  let params : gmap string wire := ∅ in
  params <- assign_limit maxProposalLimit
              (field options GetActiveOptions.limit) params ;;
  params <- assign_converted "offset" to_Int32
              (field options GetActiveOptions.offset) params ;;
  let params :=
    assign "sort_by"
      (str <$> field options GetActiveOptions.sort_by) params in
  call {| path := "/v1/proposals/get_active"; params := params |}.

Definition get_approvals (proposer proposalName : NameType)
    (options : option GetApprovalsOptions.t) : async Payload :=
  let params : gmap string wire :=
    <["proposal_name" := Name_from proposalName]>
      (<["proposer" := Name_from proposer]> ∅) in
  params <- assign_converted "globalseq" to_UInt64
              (field options GetApprovalsOptions.globalseq) params ;;
  params <- assign_limit maxApprovalLimit
              (field options GetApprovalsOptions.limit) params ;;
  params <- assign_converted "offset" to_Int32
              (field options GetApprovalsOptions.offset) params ;;
  call {| path := "/v1/proposals/get_approvals"; params := params |}.

Definition get_activity (account : NameType)
    (options : option GetActivityOptions.t) : async Payload :=
  let params : gmap string wire := <["account" := Name_from account]> ∅ in
  params <- assign_limit maxProposalLimit
              (field options GetActivityOptions.limit) params ;;
  params <- assign_converted "offset" to_Int32
              (field options GetActivityOptions.offset) params ;;
  let params :=
    assign "action_type"
      (str <$> field options GetActivityOptions.action_type) params in
  call {| path := "/v1/proposals/get_activity"; params := params |}.

Definition get_approver_proposals (approver : NameType)
    (options : option GetApproverProposalsOptions.t) : async Payload :=
  let params : gmap string wire := <["approver" := Name_from approver]> ∅ in
  let params :=
    assign "status"
      (str <$> field options GetApproverProposalsOptions.status) params in
  let params :=
    assign "include_approved"
      (boolean <$> field options GetApproverProposalsOptions.include_approved)
      params in
  params <- assign_limit maxProposalLimit
              (field options GetApproverProposalsOptions.limit) params ;;
  params <- assign_converted "offset" to_Int32
              (field options GetApproverProposalsOptions.offset) params ;;
  call {| path := "/v1/proposals/get_approver_proposals"; params := params |}.

Definition search_proposals (query : string)
    (options : option SearchProposalsOptions.t) : async Payload :=
  let params : gmap string wire := <["query" := str query]> ∅ in
  let params :=
    assign "status"
      (str <$> field options SearchProposalsOptions.status) params in
  params <- assign_limit maxProposalLimit
              (field options SearchProposalsOptions.limit) params ;;
  params <- assign_converted "offset" to_Int32
              (field options SearchProposalsOptions.offset) params ;;
  call {| path := "/v1/proposals/search_proposals"; params := params |}.

(** ** The public methods as data *)

(** One invocation of a public method of the class, with its arguments. *)
Inductive Call :=
| Get_proposal (proposer proposalName : NameType)
    (options : option GetProposalOptions.t)
| Get_proposal_history (proposer proposalName : NameType)
    (options : option GetProposalHistoryOptions.t)
| Get_proposals (options : option GetProposalsOptions.t)
| Get_active (options : option GetActiveOptions.t)
| Get_approvals (proposer proposalName : NameType)
    (options : option GetApprovalsOptions.t)
| Get_activity (account : NameType) (options : option GetActivityOptions.t)
| Get_approver_proposals (approver : NameType)
    (options : option GetApproverProposalsOptions.t)
| Search_proposals (query : string)
    (options : option SearchProposalsOptions.t)
| Get_status
| GetMaxProposalLimit
| GetMaxApprovalLimit.

(** What a method resolves to. *)
Inductive value :=
| response (payload : Payload)
| ceiling (limit : option number).

Definition map_async {A B : Type} (f : A -> B) (m : async A) : async B :=
  x <- m ;; ret (f x).

Definition run (c : Call) : async value :=
  match c with
  | Get_proposal proposer proposalName options =>
      map_async response (get_proposal proposer proposalName options)
  | Get_proposal_history proposer proposalName options =>
      map_async response (get_proposal_history proposer proposalName options)
  | Get_proposals options => map_async response (get_proposals options)
  | Get_active options => map_async response (get_active options)
  | Get_approvals proposer proposalName options =>
      map_async response (get_approvals proposer proposalName options)
  | Get_activity account options =>
      map_async response (get_activity account options)
  | Get_approver_proposals approver options =>
      map_async response (get_approver_proposals approver options)
  | Search_proposals query options =>
      map_async response (search_proposals query options)
  | Get_status => map_async response get_status
  | GetMaxProposalLimit => map_async ceiling getMaxProposalLimit
  | GetMaxApprovalLimit => map_async ceiling getMaxApprovalLimit
  end.

(** A caller that awaits a list of calls one after the other, whatever each
    one resolves to or throws. *)
Fixpoint run_all (cs : list Call) (w : World) : World :=
  match cs with
  | [] => w
  | c :: cs' => run_all cs' (snd (run c w))
  end.

(** ** Vocabulary of the specification *)

(** The fixed endpoint of each operation (the getters have none). *)
Definition endpoint (c : Call) : option string :=
  match c with
  | Get_proposal _ _ _ => Some "/v1/proposals/get_proposal"
  | Get_proposal_history _ _ _ => Some "/v1/proposals/get_proposal_history"
  | Get_proposals _ => Some "/v1/proposals/get_proposals"
  | Get_active _ => Some "/v1/proposals/get_active"
  | Get_approvals _ _ _ => Some "/v1/proposals/get_approvals"
  | Get_activity _ _ => Some "/v1/proposals/get_activity"
  | Get_approver_proposals _ _ => Some "/v1/proposals/get_approver_proposals"
  | Search_proposals _ _ => Some "/v1/proposals/search_proposals"
  | Get_status => Some "/v1/proposals/get_status"
  | GetMaxProposalLimit | GetMaxApprovalLimit => None
  end.

(** The limit the caller supplied, for the operations that accept one. *)
Definition limit_of (c : Call) : option number :=
  match c with
  | Get_proposal_history _ _ options =>
      field options GetProposalHistoryOptions.limit
  | Get_proposals options => field options GetProposalsOptions.limit
  | Get_active options => field options GetActiveOptions.limit
  | Get_approvals _ _ options => field options GetApprovalsOptions.limit
  | Get_activity _ options => field options GetActivityOptions.limit
  | Get_approver_proposals _ options =>
      field options GetApproverProposalsOptions.limit
  | Search_proposals _ options => field options SearchProposalsOptions.limit
  | Get_proposal _ _ _ | Get_status
  | GetMaxProposalLimit | GetMaxApprovalLimit => None
  end.

(** The ceiling column of the specification's table of operations: the
    approval ceiling for the approval timeline, the proposal ceiling for
    every other operation. *)
Definition applicable_ceiling (c : Call) (this : MsigsClient)
  : option number :=
  match c with
  | Get_approvals _ _ _ => maxApprovalLimit this
  | _ => maxProposalLimit this
  end.


(** The required identifiers of each operation, in their wire form. *)
Definition required_params (c : Call) : gmap string wire :=
  match c with
  | Get_proposal proposer proposalName _
  | Get_proposal_history proposer proposalName _
  | Get_approvals proposer proposalName _ =>
      {[ "proposer" := Name_from proposer;
         "proposal_name" := Name_from proposalName ]}
  | Get_activity account _ => {[ "account" := Name_from account ]}
  | Get_approver_proposals approver _ => {[ "approver" := Name_from approver ]}
  | Search_proposals query _ => {[ "query" := str query ]}
  | Get_proposals _ | Get_active _ | Get_status
  | GetMaxProposalLimit | GetMaxApprovalLimit => ∅
  end.

Definition all_undefined {O : Type} (options : option O)
    (undefined_in : O -> bool) : bool :=
  match options with
  | Some o => undefined_in o
  | None => true
  end.

(** The caller supplied none of the optional filters: no option bag, or a
    bag whose fields are all [undefined]. *)
Definition no_filters (c : Call) : bool :=
  match c with
  | Get_proposal _ _ options =>
      all_undefined options (fun o =>
        is_undefined (GetProposalOptions.globalseq o)
        && is_undefined (GetProposalOptions.version_history o))
  | Get_proposal_history _ _ options =>
      all_undefined options (fun o =>
        is_undefined (GetProposalHistoryOptions.status o)
        && is_undefined (GetProposalHistoryOptions.limit o)
        && is_undefined (GetProposalHistoryOptions.offset o))
  | Get_proposals options =>
      all_undefined options (fun o =>
        is_undefined (GetProposalsOptions.proposer o)
        && is_undefined (GetProposalsOptions.status o)
        && is_undefined (GetProposalsOptions.limit o)
        && is_undefined (GetProposalsOptions.offset o))
  | Get_active options =>
      all_undefined options (fun o =>
        is_undefined (GetActiveOptions.limit o)
        && is_undefined (GetActiveOptions.offset o)
        && is_undefined (GetActiveOptions.sort_by o))
  | Get_approvals _ _ options =>
      all_undefined options (fun o =>
        is_undefined (GetApprovalsOptions.globalseq o)
        && is_undefined (GetApprovalsOptions.limit o)
        && is_undefined (GetApprovalsOptions.offset o))
  | Get_activity _ options =>
      all_undefined options (fun o =>
        is_undefined (GetActivityOptions.limit o)
        && is_undefined (GetActivityOptions.offset o)
        && is_undefined (GetActivityOptions.action_type o))
  | Get_approver_proposals _ options =>
      all_undefined options (fun o =>
        is_undefined (GetApproverProposalsOptions.status o)
        && is_undefined (GetApproverProposalsOptions.include_approved o)
        && is_undefined (GetApproverProposalsOptions.limit o)
        && is_undefined (GetApproverProposalsOptions.offset o))
  | Search_proposals _ options =>
      all_undefined options (fun o =>
        is_undefined (SearchProposalsOptions.status o)
        && is_undefined (SearchProposalsOptions.limit o)
        && is_undefined (SearchProposalsOptions.offset o))
  | Get_status | GetMaxProposalLimit | GetMaxApprovalLimit => true
  end.

Definition status_path : string := "/v1/proposals/get_status".

(** The request of a status call. *)
Definition status_request : Request :=
  {| path := "/v1/proposals/get_status"; params := ∅ |}.

(** A client whose flag says "initialized" has both ceilings. *)
Definition settled (this : MsigsClient) : Prop :=
  limitsInitialized this = true ->
  is_Some (maxProposalLimit this) /\ is_Some (maxApprovalLimit this).

Definition is_status_call (r : Request) : bool :=
  String.eqb (path r) status_path.

(** How many status calls a log holds. *)
Definition status_calls (log : list Request) : nat :=
  length (List.filter is_status_call log).

Definition is_Get_status (c : Call) : bool :=
  match c with
  | Get_status => true
  | _ => false
  end.

(** How many times a caller invokes [get_status] itself. *)
Definition direct_status_calls (cs : list Call) : nat :=
  length (List.filter is_Get_status cs).

(** The outcome of forwarding a request to the transport. *)
Definition forwarded (r : reply) : outcome value :=
  match r with
  | resolved payload => returned (response payload)
  | rejected reason => thrown (transport_error reason)
  end.

(** The requests a computation added to the log [before]. *)
Definition added (before after : list Request) : list Request :=
  drop (length before) after.

(** A path names a debug or diagnostics endpoint. *)
Definition is_debug_path (p : string) : bool :=
  match index 0 "debug" p, index 0 "diagnos" p with
  | None, None => false
  | _, _ => true
  end.


(** The names of the optional filters of each operation. *)
Definition optional_keys (c : Call) : list string :=
  match c with
  | Get_proposal _ _ _ => ["globalseq"; "version_history"]
  | Get_proposal_history _ _ _ => ["status"; "limit"; "offset"]
  | Get_proposals _ => ["proposer"; "status"; "limit"; "offset"]
  | Get_active _ => ["limit"; "offset"; "sort_by"]
  | Get_approvals _ _ _ => ["globalseq"; "limit"; "offset"]
  | Get_activity _ _ => ["limit"; "offset"; "action_type"]
  | Get_approver_proposals _ _ =>
      ["status"; "include_approved"; "limit"; "offset"]
  | Search_proposals _ _ => ["status"; "limit"; "offset"]
  | Get_status | GetMaxProposalLimit | GetMaxApprovalLimit => []
  end.

(** The status calls discovery may still issue: one until the flag is
    set, none afterwards. *)
Definition pending (this : MsigsClient) : nat :=
  if limitsInitialized this then 0%nat else 1%nat.

(** Both ceilings are known to be [p] and [a]. *)
Definition known (p a : number) (this : MsigsClient) : Prop :=
  maxProposalLimit this = Some p /\ maxApprovalLimit this = Some a.

(** ** Sample transports *)

Definition sample_status (proposal approval : option number)
  : ServiceStatus.t :=
  {| ServiceStatus.head_block_num := None;
     ServiceStatus.last_irreversible_block_num := None;
     ServiceStatus.chain_id := None;
     ServiceStatus.server_version := None;
     ServiceStatus.accepting_http := Some true;
     ServiceStatus.database_size := None;
     ServiceStatus.database_size_mb := None;
     ServiceStatus.last_account_action_seq := None;
     ServiceStatus.synced := Some true;
     ServiceStatus.max_proposal_results := proposal;
     ServiceStatus.max_approval_results := approval |}.

(** A service that answers every call and reports the given ceilings. *)
Definition service (proposal approval : option number) : APIClient :=
  fun _ request =>
    resolved {| json := path request;
                as_status := sample_status proposal approval |}.

(** A transport whose every call fails. *)
Definition unreachable : APIClient :=
  fun _ _ => rejected "Network error".

(** A library with the range checks of @wharfkit/antelope on numbers:
    [Int32.from] takes -2^31 to 2^31 - 1, [UInt64.from] takes 0 to
    2^53 - 1 (a number from 2^53 on fails in the big-number constructor
    before any range check). *)
Definition ranges : Antelope :=
  {| Int32_throws := fun n =>
       if 2 ^ 53 <=? Z.abs n then Some "Assertion failed"
       else if 2 ^ 31 - 1 <? n
       then Some ("Number " +:+ number_to_string n +:+ " overflows int32")
       else if n <? - 2 ^ 31
       then Some ("Number " +:+ number_to_string n +:+ " underflows int32")
       else None;
     UInt64_throws := fun n =>
       if 2 ^ 53 <=? Z.abs n then Some "Assertion failed"
       else if n <? 0
       then Some ("Number " +:+ number_to_string n +:+ " underflows uint64")
       else None |}.

(** A newly constructed client that has sent nothing. *)
Definition fresh (client : APIClient)
    (options : option MsigsClientOptions.t) : World :=
  {| this := constructor client options; sent := [] |}.

(** ** The request of an operation, read off its arguments *)

(** The offset the caller supplied, for the operations that accept one. *)
Definition offset_of (c : Call) : option number :=
  match c with
  | Get_proposal_history _ _ options =>
      field options GetProposalHistoryOptions.offset
  | Get_proposals options => field options GetProposalsOptions.offset
  | Get_active options => field options GetActiveOptions.offset
  | Get_approvals _ _ options => field options GetApprovalsOptions.offset
  | Get_activity _ options => field options GetActivityOptions.offset
  | Get_approver_proposals _ options =>
      field options GetApproverProposalsOptions.offset
  | Search_proposals _ options => field options SearchProposalsOptions.offset
  | Get_proposal _ _ _ | Get_status
  | GetMaxProposalLimit | GetMaxApprovalLimit => None
  end.

(** A filter that was supplied, as a one-entry map. *)
Definition supplied (key : string) (v : option wire) : gmap string wire :=
  match v with
  | Some x => {[ key := x ]}
  | None => ∅
  end.

(** The optional filters the caller supplied, each in its wire form. *)
Definition optional_params (c : Call) : gmap string wire :=
  match c with
  | Get_proposal _ _ o =>
      supplied "globalseq" (UInt64_from <$> field o GetProposalOptions.globalseq)
      ∪ supplied "version_history"
          (boolean <$> field o GetProposalOptions.version_history)
  | Get_proposal_history _ _ o =>
      supplied "status" (str <$> field o GetProposalHistoryOptions.status)
      ∪ supplied "limit" (Int32_from <$> field o GetProposalHistoryOptions.limit)
      ∪ supplied "offset"
          (Int32_from <$> field o GetProposalHistoryOptions.offset)
  | Get_proposals o =>
      supplied "proposer" (Name_from <$> field o GetProposalsOptions.proposer)
      ∪ supplied "status" (str <$> field o GetProposalsOptions.status)
      ∪ supplied "limit" (Int32_from <$> field o GetProposalsOptions.limit)
      ∪ supplied "offset" (Int32_from <$> field o GetProposalsOptions.offset)
  | Get_active o =>
      supplied "limit" (Int32_from <$> field o GetActiveOptions.limit)
      ∪ supplied "offset" (Int32_from <$> field o GetActiveOptions.offset)
      ∪ supplied "sort_by" (str <$> field o GetActiveOptions.sort_by)
  | Get_approvals _ _ o =>
      supplied "globalseq"
        (UInt64_from <$> field o GetApprovalsOptions.globalseq)
      ∪ supplied "limit" (Int32_from <$> field o GetApprovalsOptions.limit)
      ∪ supplied "offset" (Int32_from <$> field o GetApprovalsOptions.offset)
  | Get_activity _ o =>
      supplied "limit" (Int32_from <$> field o GetActivityOptions.limit)
      ∪ supplied "offset" (Int32_from <$> field o GetActivityOptions.offset)
      ∪ supplied "action_type" (str <$> field o GetActivityOptions.action_type)
  | Get_approver_proposals _ o =>
      supplied "status" (str <$> field o GetApproverProposalsOptions.status)
      ∪ supplied "include_approved"
          (boolean <$> field o GetApproverProposalsOptions.include_approved)
      ∪ supplied "limit"
          (Int32_from <$> field o GetApproverProposalsOptions.limit)
      ∪ supplied "offset"
          (Int32_from <$> field o GetApproverProposalsOptions.offset)
  | Search_proposals _ o =>
      supplied "status" (str <$> field o SearchProposalsOptions.status)
      ∪ supplied "limit" (Int32_from <$> field o SearchProposalsOptions.limit)
      ∪ supplied "offset" (Int32_from <$> field o SearchProposalsOptions.offset)
  | Get_status | GetMaxProposalLimit | GetMaxApprovalLimit => ∅
  end.

(** The request an operation is meant to send: its endpoint, with the
    required identifiers and the supplied filters. *)
Definition request_of (c : Call) : option Request :=
  match endpoint c with
  | Some p =>
      Some {| path := p; params := required_params c ∪ optional_params c |}
  | None => None
  end.

(** The world in which an operation reaches its validation: the one
    discovery leaves when a limit was supplied, the one it found
    otherwise. *)
Definition validation_world (c : Call) (w : World) : World :=
  match limit_of c with
  | Some _ => snd (initializeLimits w)
  | None => w
  end.

(** The supplied limit is above the ceiling the operation reads. *)
Definition over_ceiling (c : Call) (w : World) : bool :=
  match limit_of c with
  | Some l => exceeds l (applicable_ceiling c (this (validation_world c w)))
  | None => false
  end.

(** ** The conversions of a call *)

(** The version sequence number the caller supplied, for the operations
    that accept one. *)
Definition globalseq_of (c : Call) : option UInt64Type :=
  match c with
  | Get_proposal _ _ options => field options GetProposalOptions.globalseq
  | Get_approvals _ _ options => field options GetApprovalsOptions.globalseq
  | _ => None
  end.

(** The message a conversion throws on a supplied value, if it throws. *)
Definition thrown_on {A : Type} (throws : A -> option string) (v : option A)
  : option string :=
  match v with
  | Some x => throws x
  | None => None
  end.

(** [UInt64.from (options.globalseq)] comes first in a method, before
    discovery and the limit check. *)
Definition globalseq_error (c : Call) : option string :=
  thrown_on (UInt64_throws antelope) (globalseq_of c).

(** [Int32.from (options.limit)] follows the limit check. *)
Definition limit_error (c : Call) : option string :=
  thrown_on (Int32_throws antelope) (limit_of c).

(** [Int32.from (options.offset)] comes last. *)
Definition offset_error (c : Call) : option string :=
  thrown_on (Int32_throws antelope) (offset_of c).

(** The library accepts every value the call has it convert. *)
Definition convertible (c : Call) : Prop :=
  globalseq_error c = None /\ limit_error c = None /\ offset_error c = None.

(** The quotient of two integers as a rational, for stating floors and
    ceilings the way the specification writes them. *)
Definition quotient (a b : Z) : Q := (inject_Z a / inject_Z b)%Q.

(** ** Facts about the integer floor and ceiling *)

Lemma Qfloor_quotient (a b : Z) : 0 < b -> Qfloor (quotient a b) = a / b.
Proof.
  intros Hb. destruct b as [|p|p]; try lia.
  unfold quotient, Qdiv, Qinv, Qmult, inject_Z, Qfloor; simpl.
  now rewrite Z.mul_1_r.
Qed.

Lemma Qceiling_quotient (a b : Z) : 0 < b -> Qceiling (quotient a b) = - ((- a) / b).
Proof.
  intros Hb. destruct b as [|p|p]; try lia.
  unfold Qceiling, quotient, Qdiv, Qinv, Qmult, Qopp, inject_Z, Qfloor; simpl.
  now rewrite Z.mul_1_r.
Qed.

Lemma floor_div_bounds (a b : Z) : 0 < b -> b * (a / b) <= a < b * (a / b) + b.
Proof.
  intros Hb. pose proof (Z.div_mod a b ltac:(lia)) as E.
  pose proof (Z.mod_pos_bound a b Hb). lia.
Qed.

Lemma ceil_div_bounds (a b : Z) :
  0 < b -> b * Math_ceil_div a b - b < a <= b * Math_ceil_div a b.
Proof.
  intros Hb. unfold Math_ceil_div.
  pose proof (floor_div_bounds (- a) b Hb). lia.
Qed.

(** ** Limit discovery *)

Ltac destruct_world w :=
  let cl := fresh "cl" in
  let op := fresh "op" in
  let p := fresh "p" in
  let a := fresh "a" in
  let i := fresh "i" in
  let log := fresh "log" in
  destruct w as [[cl op p a i] log].

Ltac run_discovery :=
  cbv [initializeLimits bind read write ret try_catch when get_status call
       is_undefined negb andb this sent client limitsInitialized
       maxProposalLimit maxApprovalLimit set_maxProposalLimit
       set_maxApprovalLimit set_limitsInitialized options fst snd].

Lemma initializeLimits_returns (w : World) :
  initializeLimits w = (returned tt, snd (initializeLimits w)).
Proof.
  destruct_world w. destruct i, p as [p|], a as [a|]; run_discovery;
    try reflexivity;
    match goal with |- context [cl ?l ?r] => destruct (cl l r) end;
    reflexivity.
Qed.

Lemma initializeLimits_noop (w : World) :
  limitsInitialized (this w) = true -> initializeLimits w = (returned tt, w).
Proof.
  destruct_world w. cbn. intros ->. reflexivity.
Qed.

Lemma initializeLimits_initialized (w : World) :
  limitsInitialized (this (snd (initializeLimits w))) = true.
Proof.
  destruct_world w. destruct i, p as [p|], a as [a|]; run_discovery;
    try reflexivity;
    match goal with |- context [cl ?l ?r] => destruct (cl l r) end;
    reflexivity.
Qed.

Lemma initializeLimits_settled (w : World) :
  settled (this w) -> settled (this (snd (initializeLimits w))).
Proof.
  intros Hw _. destruct_world w.
  destruct i.
  - apply Hw. reflexivity.
  - clear Hw. destruct p as [p|], a as [a|]; run_discovery;
      try (split; eexists; reflexivity);
      match goal with |- context [cl ?l ?r] => destruct (cl l r) end;
      split; eexists; reflexivity.
Qed.

(** Discovery sends nothing when the flag is set or both ceilings are
    known, and exactly one status call otherwise. *)
Lemma initializeLimits_sent (w : World) :
  sent (snd (initializeLimits w)) =
    if limitsInitialized (this w)
       || (negb (is_undefined (maxProposalLimit (this w)))
           && negb (is_undefined (maxApprovalLimit (this w))))
    then sent w
    else (sent w ++ [status_request])%list.
Proof.
  destruct_world w. destruct i, p as [p|], a as [a|]; run_discovery;
    try reflexivity;
    match goal with |- context [cl ?l ?r] => destruct (cl l r) end;
    reflexivity.
Qed.

(** Discovery never overwrites a ceiling that is already known, and never
    touches the transport or the options. *)
Lemma initializeLimits_keeps (w : World) :
  let w' := snd (initializeLimits w) in
  client (this w') = client (this w)
  /\ options (this w') = options (this w)
  /\ (forall v, maxProposalLimit (this w) = Some v ->
                maxProposalLimit (this w') = Some v)
  /\ (forall v, maxApprovalLimit (this w) = Some v ->
                maxApprovalLimit (this w') = Some v).
Proof.
  destruct_world w. destruct i, p as [p|], a as [a|]; run_discovery;
    try (repeat split; intros; (assumption || discriminate));
    match goal with |- context [cl ?l ?r] => destruct (cl l r) end;
    repeat split; intros; (assumption || discriminate).
Qed.


Lemma added_app (log extra : list Request) : added log (log ++ extra) = extra.
Proof. unfold added. apply drop_app_length. Qed.


Lemma initializeLimits_prefix (w : World) :
  exists pre : list Request,
    sent (snd (initializeLimits w)) = (sent w ++ pre)%list
    /\ (length pre <= 1)%nat
    /\ Forall (fun r => r = status_request) pre
    /\ (limitsInitialized (this w) = true -> pre = []).
Proof.
  rewrite initializeLimits_sent.
  destruct (limitsInitialized (this w)); cbn [orb].
  - exists []. rewrite app_nil_r.
    split; [reflexivity | split; [cbn; lia | split; [constructor | reflexivity]]].
  - destruct (negb (is_undefined (maxProposalLimit (this w)))
              && negb (is_undefined (maxApprovalLimit (this w)))).
    + exists []. rewrite app_nil_r.
      split; [reflexivity | split; [cbn; lia | split; [constructor | reflexivity]]].
    + exists [status_request].
      split; [reflexivity | split; [cbn; lia | split;
        [repeat constructor | discriminate]]].
Qed.

Lemma getMaxProposalLimit_eq (w : World) :
  getMaxProposalLimit w =
    (returned (maxProposalLimit (this (snd (initializeLimits w)))),
     snd (initializeLimits w)).
Proof.
  unfold getMaxProposalLimit, bind, read.
  pose proof (initializeLimits_returns w) as E.
  destruct (initializeLimits w) as [r w1]. cbn [snd] in *.
  injection E as ->. reflexivity.
Qed.

Lemma getMaxApprovalLimit_eq (w : World) :
  getMaxApprovalLimit w =
    (returned (maxApprovalLimit (this (snd (initializeLimits w)))),
     snd (initializeLimits w)).
Proof.
  unfold getMaxApprovalLimit, bind, read.
  pose proof (initializeLimits_returns w) as E.
  destruct (initializeLimits w) as [r w1]. cbn [snd] in *.
  injection E as ->. reflexivity.
Qed.

(** ** The shape of one call *)

Lemma assign_converted_None {A : Type} (key : string)
    (convert : A -> async wire) (params : gmap string wire) (w : World) :
  assign_converted key convert None params w = (returned params, w).
Proof. reflexivity. Qed.

Lemma assign_Int32_Some (key : string) (n : number)
    (params : gmap string wire) (w : World) :
  assign_converted key to_Int32 (Some n) params w =
    match Int32_throws antelope n with
    | Some message => (thrown (Error message), w)
    | None => (returned (<[key := Int32_from n]> params), w)
    end.
Proof.
  unfold assign_converted, bind, to_Int32.
  destruct (Int32_throws antelope n); reflexivity.
Qed.

Lemma assign_UInt64_Some (key : string) (n : UInt64Type)
    (params : gmap string wire) (w : World) :
  assign_converted key to_UInt64 (Some n) params w =
    match UInt64_throws antelope n with
    | Some message => (thrown (Error message), w)
    | None => (returned (<[key := UInt64_from n]> params), w)
    end.
Proof.
  unfold assign_converted, bind, to_UInt64.
  destruct (UInt64_throws antelope n); reflexivity.
Qed.

Lemma assign_limit_None (ceiling : MsigsClient -> option number)
    (params : gmap string wire) (w : World) :
  assign_limit ceiling None params w = (returned params, w).
Proof. reflexivity. Qed.

Lemma assign_limit_Some (ceiling : MsigsClient -> option number)
    (l : number) (params : gmap string wire) (w : World) :
  assign_limit ceiling (Some l) params w =
    let w1 := snd (initializeLimits w) in
    if exceeds l (ceiling (this w1))
    then (thrown (Error ("Limit cannot exceed " +:+ template (ceiling (this w1)))), w1)
    else match Int32_throws antelope l with
         | Some message => (thrown (Error message), w1)
         | None => (returned (<["limit" := Int32_from l]> params), w1)
         end.
Proof.
  unfold assign_limit, bind, read, to_Int32.
  pose proof (initializeLimits_returns w) as E.
  destruct (initializeLimits w) as [o w1]. cbn [snd] in *.
  injection E as ->. cbv zeta.
  destruct (exceeds l (ceiling (this w1))); [reflexivity | ].
  destruct (Int32_throws antelope l); reflexivity.
Qed.

Lemma assign_lookup_ne (key k : string) (v : option wire)
    (params : gmap string wire) :
  key <> k -> assign key v params !! k = params !! k.
Proof.
  intros Hne. destruct v as [x|]; cbn; [ | reflexivity].
  now rewrite lookup_insert_ne.
Qed.

Lemma map_async_call (r : Request) (w : World) :
  map_async response (call r) w =
    (forwarded (client (this w) (sent w) r),
     {| this := this w; sent := sent w ++ [r] |}).
Proof.
  unfold map_async, bind, call, forwarded, ret. cbv zeta.
  destruct (client (this w) (sent w) r); reflexivity.
Qed.

Lemma map_async_bind {A B C : Type} (f : B -> C) (m : async A)
    (k : A -> async B) (w : World) :
  map_async f (bind m k) w =
    match m w with
    | (returned a, w') => map_async f (k a) w'
    | (thrown e, w') => (thrown e, w')
    end.
Proof.
  unfold map_async, bind. destruct (m w) as [[a|e] w']; reflexivity.
Qed.

Lemma run_getMaxProposalLimit (w : World) :
  run GetMaxProposalLimit w =
    (returned (ceiling (maxProposalLimit (this (snd (initializeLimits w))))),
     snd (initializeLimits w)).
Proof.
  cbn [run]. unfold getMaxProposalLimit. rewrite map_async_bind.
  pose proof (initializeLimits_returns w) as E.
  destruct (initializeLimits w) as [o w1]. cbn [snd] in *.
  injection E as ->. reflexivity.
Qed.

Lemma run_getMaxApprovalLimit (w : World) :
  run GetMaxApprovalLimit w =
    (returned (ceiling (maxApprovalLimit (this (snd (initializeLimits w))))),
     snd (initializeLimits w)).
Proof.
  cbn [run]. unfold getMaxApprovalLimit. rewrite map_async_bind.
  pose proof (initializeLimits_returns w) as E.
  destruct (initializeLimits w) as [o w1]. cbn [snd] in *.
  injection E as ->. reflexivity.
Qed.

Lemma run_get_status (w : World) :
  run Get_status w =
    (forwarded (client (this w) (sent w) status_request),
     {| this := this w; sent := sent w ++ [status_request] |}).
Proof.
  cbn [run]. unfold get_status. rewrite map_async_call. reflexivity.
Qed.

Lemma status_calls_app (l1 l2 : list Request) :
  status_calls (l1 ++ l2) = (status_calls l1 + status_calls l2)%nat.
Proof.
  unfold status_calls. rewrite List.filter_app. apply List.length_app.
Qed.

Lemma endpoint_not_status (c : Call) (p : string) :
  endpoint c = Some p -> is_Get_status c = false ->
  String.eqb p status_path = false.
Proof.
  destruct c; cbn; intros H Hc; try discriminate; injection H as <-;
    reflexivity.
Qed.




Lemma required_params_lookup (c : Call) (k : string) :
  k <> "proposer" -> k <> "proposal_name" -> k <> "account" ->
  k <> "approver" -> k <> "query" ->
  required_params c !! k = None.
Proof.
  intros. destruct c; cbn [required_params];
    rewrite ?lookup_insert_ne, ?lookup_singleton_ne by congruence;
    try apply lookup_empty; reflexivity.
Qed.

Lemma supplied_lookup_eq (key : string) (v : option wire) :
  supplied key v !! key = v.
Proof.
  destruct v; cbn [supplied]; [apply lookup_singleton_eq | apply lookup_empty].
Qed.

Lemma supplied_lookup_ne (key k : string) (v : option wire) :
  key <> k -> supplied key v !! k = None.
Proof.
  intros H. destruct v; cbn [supplied];
    [now apply lookup_singleton_ne | apply lookup_empty].
Qed.

(** Case analysis on every optional argument in sight. *)
Ltac each_option :=
  repeat match goal with
         | x : option _ |- _ => destruct x
         | x : GetProposalOptions.t |- _ => destruct x
         | x : GetProposalHistoryOptions.t |- _ => destruct x
         | x : GetProposalsOptions.t |- _ => destruct x
         | x : GetActiveOptions.t |- _ => destruct x
         | x : GetApprovalsOptions.t |- _ => destruct x
         | x : GetActivityOptions.t |- _ => destruct x
         | x : GetApproverProposalsOptions.t |- _ => destruct x
         | x : SearchProposalsOptions.t |- _ => destruct x
         end.

Ltac read_options :=
  cbn [field
       GetProposalOptions.globalseq GetProposalOptions.version_history
       GetProposalHistoryOptions.status GetProposalHistoryOptions.limit
       GetProposalHistoryOptions.offset
       GetProposalsOptions.proposer GetProposalsOptions.status
       GetProposalsOptions.limit GetProposalsOptions.offset
       GetActiveOptions.limit GetActiveOptions.offset GetActiveOptions.sort_by
       GetApprovalsOptions.globalseq GetApprovalsOptions.limit
       GetApprovalsOptions.offset
       GetActivityOptions.limit GetActivityOptions.offset
       GetActivityOptions.action_type
       GetApproverProposalsOptions.status
       GetApproverProposalsOptions.include_approved
       GetApproverProposalsOptions.limit GetApproverProposalsOptions.offset
       SearchProposalsOptions.status SearchProposalsOptions.limit
       SearchProposalsOptions.offset] in *.

Ltac send_request :=
  read_options;
  repeat (rewrite map_async_bind;
          first [ rewrite assign_converted_None
                | rewrite assign_Int32_Some
                | rewrite assign_UInt64_Some
                | rewrite assign_limit_None
                | rewrite assign_limit_Some ];
          cbv zeta;
          repeat match goal with
                 | H : Int32_throws antelope ?n = _
                   |- context [Int32_throws antelope ?n] => rewrite H
                 | H : UInt64_throws antelope ?n = _
                   |- context [UInt64_throws antelope ?n] => rewrite H
                 | H : exceeds ?l ?c = _ |- context [exceeds ?l ?c] =>
                     rewrite H
                 | |- context [exceeds ?l ?c] => destruct (exceeds l c) eqn:?
                 | |- context [Int32_throws antelope ?n] =>
                     destruct (Int32_throws antelope n) eqn:?
                 | |- context [UInt64_throws antelope ?n] =>
                     destruct (UInt64_throws antelope n) eqn:?
                 end;
          cbv beta iota; try reflexivity);
  rewrite map_async_call; reflexivity.

(** What an operation does, in full.  It first converts a supplied
    [globalseq]; it reaches its validation in [validation_world] and throws
    there when the limit is over the ceiling; it then converts the limit
    and the offset; and only then hands [request_of] to the transport and
    ends as the transport answers. *)
Lemma run_request (c : Call) (r : Request) (w : World) :
  request_of c = Some r ->
  run c w =
    match globalseq_error c with
    | Some message => (thrown (Error message), w)
    | None =>
        if over_ceiling c w
        then (thrown (Error ("Limit cannot exceed "
                             +:+ template (applicable_ceiling c
                                             (this (validation_world c w))))),
              validation_world c w)
        else
          match limit_error c with
          | Some message => (thrown (Error message), validation_world c w)
          | None =>
              match offset_error c with
              | Some message => (thrown (Error message), validation_world c w)
              | None =>
                  (forwarded (client (this (validation_world c w))
                                (sent (validation_world c w)) r),
                   {| this := this (validation_world c w);
                      sent := sent (validation_world c w) ++ [r] |})
              end
          end
    end.
Proof.
  intros Hr. unfold request_of in Hr.
  destruct c; cbn [endpoint] in Hr; try discriminate; injection Hr as <-;
    each_option;
    unfold globalseq_error, limit_error, offset_error, thrown_on,
      over_ceiling, validation_world;
    cbn [globalseq_of limit_of offset_of applicable_ceiling run];
    read_options.
  all: first
    [ unfold get_proposal; send_request
    | unfold get_proposal_history; send_request
    | unfold get_proposals; send_request
    | unfold get_active; send_request
    | unfold get_approvals; send_request
    | unfold get_activity; send_request
    | unfold get_approver_proposals; send_request
    | unfold search_proposals; send_request
    | unfold get_status; send_request ].
Qed.

Lemma request_of_None (c : Call) (w : World) :
  request_of c = None ->
  exists v, run c w = (returned (ceiling v), snd (initializeLimits w)).
Proof.
  unfold request_of. destruct c; cbn [endpoint]; intros H; try discriminate.
  - rewrite run_getMaxProposalLimit. now eexists.
  - rewrite run_getMaxApprovalLimit. now eexists.
Qed.

Lemma request_of_endpoint (c : Call) (r : Request) :
  request_of c = Some r -> endpoint c = Some (path r).
Proof.
  unfold request_of. destruct (endpoint c); [ | discriminate].
  now intros [= <-].
Qed.


Lemma offset_of_request (c : Call) (offset : number) :
  offset_of c = Some offset ->
  exists r, request_of c = Some r
            /\ params r !! "offset" = Some (Int32_from offset).
Proof.
  intros Ho. unfold request_of.
  destruct c; cbn [offset_of endpoint] in *; try discriminate;
    eexists; (split; [reflexivity | ]);
    cbn [params optional_params];
    rewrite !lookup_union, required_params_lookup by discriminate;
    rewrite ?supplied_lookup_eq, ?supplied_lookup_ne by discriminate;
    rewrite Ho; reflexivity.
Qed.

Lemma validation_world_cases (c : Call) (w : World) :
  validation_world c w = w
  \/ validation_world c w = snd (initializeLimits w).
Proof. unfold validation_world. destruct (limit_of c); auto. Qed.


Lemma world_eta (w : World) : {| this := this w; sent := sent w |} = w.
Proof. now destruct w. Qed.

(** ** The effect of one call on the client and on the log *)

(** Whatever the call, the world it leaves is the one it found, or the one
    discovery makes of it, with at most one request appended, and that
    request goes to the call's own endpoint. *)
Lemma run_shape (c : Call) (w : World) :
  exists (base : World) (extra : list Request),
    (base = w \/ base = snd (initializeLimits w))
    /\ snd (run c w) = {| this := this base; sent := sent base ++ extra |}
    /\ Forall (fun r => endpoint c = Some (path r)) extra
    /\ status_calls extra = (if is_Get_status c then 1 else 0)%nat
    /\ (length extra <= 1)%nat.
Proof.
  assert (Hnil : forall base, {| this := this base; sent := sent base ++ [] |}
                              = base).
  { intros base. rewrite app_nil_r. apply world_eta. }
  destruct (request_of c) as [r|] eqn:Hr.
  - pose proof (request_of_endpoint c r Hr) as Hp.
    destruct (is_Get_status c) eqn:Hc.
    + destruct c; try discriminate. injection Hr as <-.
      exists w, [status_request]. rewrite run_get_status. cbn [snd].
      split; [now left | ]. split; [reflexivity | ].
      split; [repeat constructor | ]. split; [reflexivity | cbn; lia].
    + pose proof (run_request c r w Hr) as Hrun.
      pose proof (validation_world_cases c w) as Hv.
      assert (Hstop : forall e base,
                 (base = w \/ base = snd (initializeLimits w)) ->
                 run c w = (thrown e, base) ->
                 exists (base : World) (extra : list Request),
                   (base = w \/ base = snd (initializeLimits w))
                   /\ snd (run c w)
                      = {| this := this base; sent := sent base ++ extra |}
                   /\ Forall (fun r => endpoint c = Some (path r)) extra
                   /\ status_calls extra = 0%nat
                   /\ (length extra <= 1)%nat).
      { intros e base Hb Hrun'. exists base, []. rewrite Hrun'. cbn [snd].
        split; [exact Hb | ]. split; [now rewrite Hnil | ].
        split; [constructor | ]. split; [reflexivity | cbn; lia]. }
      destruct (globalseq_error c).
      { eapply Hstop; [ | exact Hrun]. now left. }
      destruct (over_ceiling c w).
      { eapply Hstop; [ | exact Hrun]. exact Hv. }
      destruct (limit_error c).
      { eapply Hstop; [ | exact Hrun]. exact Hv. }
      destruct (offset_error c).
      { eapply Hstop; [ | exact Hrun]. exact Hv. }
      exists (validation_world c w), [r]. rewrite Hrun. cbn [snd].
      split; [exact Hv | ]. split; [reflexivity | ].
      split; [repeat constructor; exact Hp | ]. split; [ | cbn; lia].
      unfold status_calls, is_status_call. cbn [List.filter].
      now rewrite (endpoint_not_status c (path r) Hp Hc).
  - destruct (request_of_None c w Hr) as [v Hv].
    assert (Hc : is_Get_status c = false).
    { unfold request_of in Hr. destruct c; try reflexivity; discriminate. }
    exists (snd (initializeLimits w)), []. rewrite Hv, Hc. cbn [snd].
    split; [now right | ]. split; [now rewrite Hnil | ].
    split; [constructor | ]. split; [reflexivity | cbn; lia].
Qed.

Lemma run_world (c : Call) (w : World) :
  exists (base : World) (extra : list Request),
    (base = w \/ base = snd (initializeLimits w))
    /\ snd (run c w) = {| this := this base; sent := sent base ++ extra |}
    /\ Forall (fun r => endpoint c = Some (path r)) extra
    /\ status_calls extra = (if is_Get_status c then 1 else 0)%nat.
Proof.
  destruct (run_shape c w) as (base & extra & H1 & H2 & H3 & H4 & _).
  now exists base, extra.
Qed.

(** ** Limit validation *)





(** ** Parameter omission *)

(** Case analysis on an option bag none of whose fields is supplied. *)
Ltac absent_options H :=
  try match type of H with
      | all_undefined ?o _ = true =>
          destruct o as [[]|]; cbn [all_undefined] in H;
          repeat match goal with
                 | x : option _ |- _ => destruct x
                 end;
          try discriminate H
      end.

Lemma no_filters_plain (c : Call) :
  no_filters c = true ->
  globalseq_of c = None /\ limit_of c = None /\ offset_of c = None
  /\ optional_params c = ∅.
Proof.
  intros H.
  destruct c; cbn [no_filters] in H; absent_options H;
    repeat split; reflexivity.
Qed.

(** C7: an operation called without optional filters sends exactly its
    required identifiers: the parameter map of the request is
    [required_params], which holds no [status], [limit] or [offset] and
    none of the operation's other optional keys. *)
Theorem no_filters_only_required (c : Call) (p : string) (w : World) :
  no_filters c = true ->
  endpoint c = Some p ->
  (let request := {| path := p; params := required_params c |} in
   run c w = (forwarded (client (this w) (sent w) request),
              {| this := this w; sent := sent w ++ [request] |}))
  /\ required_params c !! "status" = None
  /\ required_params c !! "limit" = None
  /\ required_params c !! "offset" = None
  /\ Forall (fun k => required_params c !! k = None) (optional_keys c).
Proof.
  intros Hn Hp. split; [ | split; [ | split; [ | split]]];
    try (apply required_params_lookup; discriminate).
  - cbv zeta.
    destruct (no_filters_plain c Hn) as (Hg & Hl & Ho & He).
    assert (Hr : request_of c
                 = Some {| path := p; params := required_params c |}).
    { unfold request_of. now rewrite Hp, He, map_union_empty. }
    rewrite (run_request c _ w Hr).
    unfold globalseq_error, limit_error, offset_error, over_ceiling,
      validation_world.
    rewrite Hg, Hl, Ho. reflexivity.
  - destruct c; cbn [optional_keys]; repeat constructor;
      try (apply required_params_lookup; discriminate);
      apply lookup_empty.
Qed.

(** ** Discovery against a failing or a zero-reporting status endpoint *)

Ltac run_getters :=
  cbv [getMaxProposalLimit getMaxApprovalLimit initializeLimits bind read
       write ret try_catch when get_status call is_undefined negb andb this
       sent client limitsInitialized maxProposalLimit maxApprovalLimit
       set_maxProposalLimit set_maxApprovalLimit set_limitsInitialized
       options fst snd constructor field default or_default
       MsigsClientOptions.maxProposalLimit
       MsigsClientOptions.maxApprovalLimit].

(** C4: when the status call of discovery is rejected by the transport,
    discovery completes without an error, [getMaxProposalLimit] resolves to
    20 and [getMaxApprovalLimit] to 100 (to the supplied value for a limit
    given at construction), on the first use and afterwards. *)
Theorem discovery_absorbs_transport_failure
    (cl : APIClient) (o : option MsigsClientOptions.t)
    (log : list Request) (reason : string) :
  cl log status_request = rejected reason ->
  let w := {| this := constructor cl o; sent := log |} in
  let w1 := snd (initializeLimits w) in
  let proposal := default 20 (field o MsigsClientOptions.maxProposalLimit) in
  let approval := default 100 (field o MsigsClientOptions.maxApprovalLimit) in
  initializeLimits w = (returned tt, w1)
  /\ getMaxProposalLimit w = (returned (Some proposal), w1)
  /\ getMaxApprovalLimit w = (returned (Some approval), w1)
  /\ getMaxProposalLimit w1 = (returned (Some proposal), w1)
  /\ getMaxApprovalLimit w1 = (returned (Some approval), w1).
Proof.
  intros H. unfold status_request in H.
  destruct o as [[[p|] [a|]]|]; run_getters; rewrite ?H;
    repeat split; reflexivity.
Qed.

(** C9: when the status call succeeds and reports
    [max_proposal_results = 0] (or [max_approval_results = 0]), a limit
    that was not supplied at construction resolves to the default 20
    (or 100), not to 0. *)
Theorem zero_ceiling_resolves_to_default
    (cl : APIClient) (o : option MsigsClientOptions.t)
    (log : list Request) (payload : Payload) :
  cl log status_request = resolved payload ->
  let w := {| this := constructor cl o; sent := log |} in
  (ServiceStatus.max_proposal_results (as_status payload) = Some 0 ->
   field o MsigsClientOptions.maxProposalLimit = None ->
   fst (getMaxProposalLimit w) = returned (Some 20))
  /\ (ServiceStatus.max_approval_results (as_status payload) = Some 0 ->
      field o MsigsClientOptions.maxApprovalLimit = None ->
      fst (getMaxApprovalLimit w) = returned (Some 100)).
Proof.
  intros H. unfold status_request in H.
  split; intros Hz Hn;
    destruct o as [[[p|] [a|]]|]; cbn [field MsigsClientOptions.maxProposalLimit
      MsigsClientOptions.maxApprovalLimit] in Hn; try discriminate Hn;
    run_getters; rewrite H; cbv beta iota; rewrite Hz; reflexivity.
Qed.

(** ** Sequences of calls *)

Lemma direct_status_calls_cons (c : Call) (cs : list Call) :
  direct_status_calls (c :: cs) =
    ((if is_Get_status c then 1 else 0) + direct_status_calls cs)%nat.
Proof.
  unfold direct_status_calls. cbn [List.filter].
  destruct (is_Get_status c); reflexivity.
Qed.

(** Once the flag is set, a call leaves the client as it is and sends a
    status call only if it is [get_status] itself. *)
Lemma run_initialized (c : Call) (w : World) :
  limitsInitialized (this w) = true ->
  this (snd (run c w)) = this w
  /\ status_calls (sent (snd (run c w))) =
       (status_calls (sent w) + (if is_Get_status c then 1 else 0))%nat.
Proof.
  intros Hi.
  destruct (run_world c w) as (base & extra & Hbase & Hrun & _ & Hcount).
  rewrite (initializeLimits_noop w Hi) in Hbase. cbn [snd] in Hbase.
  assert (base = w) as -> by (destruct Hbase; assumption).
  rewrite Hrun. cbn [this sent]. split; [reflexivity | ].
  now rewrite status_calls_app, Hcount.
Qed.

Lemma run_all_initialized (cs : list Call) (w : World) :
  limitsInitialized (this w) = true ->
  this (run_all cs w) = this w
  /\ status_calls (sent (run_all cs w)) =
       (status_calls (sent w) + direct_status_calls cs)%nat.
Proof.
  revert w. induction cs as [|c cs IH]; intros w Hi; cbn [run_all].
  - split; [reflexivity | ]. unfold direct_status_calls. cbn. lia.
  - destruct (run_initialized c w Hi) as [Ht Hs].
    destruct (IH (snd (run c w))) as [Ht' Hs'].
    + now rewrite Ht.
    + split; [congruence | ].
      rewrite Hs', Hs, direct_status_calls_cons. lia.
Qed.

Lemma initializeLimits_budget (w : World) :
  (status_calls (sent (snd (initializeLimits w)))
   <= status_calls (sent w) + pending (this w))%nat.
Proof.
  rewrite initializeLimits_sent. unfold pending.
  destruct (limitsInitialized (this w)); cbn [orb].
  - lia.
  - destruct (negb (is_undefined (maxProposalLimit (this w)))
              && negb (is_undefined (maxApprovalLimit (this w)))).
    + lia.
    + rewrite status_calls_app. cbn. lia.
Qed.

(** A call spends at most the one pending discovery on top of its own
    status call. *)
Lemma run_budget (c : Call) (w : World) :
  (status_calls (sent (snd (run c w))) + pending (this (snd (run c w)))
   <= status_calls (sent w) + pending (this w)
      + (if is_Get_status c then 1 else 0))%nat.
Proof.
  destruct (run_world c w) as (base & extra & Hbase & Hrun & _ & Hcount).
  rewrite Hrun. cbn [this sent]. rewrite status_calls_app, Hcount.
  destruct Hbase as [-> | ->].
  - lia.
  - pose proof (initializeLimits_budget w) as Hb.
    unfold pending at 1. rewrite initializeLimits_initialized. lia.
Qed.

Lemma run_all_budget (cs : list Call) (w : World) :
  (status_calls (sent (run_all cs w)) + pending (this (run_all cs w))
   <= status_calls (sent w) + pending (this w) + direct_status_calls cs)%nat.
Proof.
  revert w. induction cs as [|c cs IH]; intros w; cbn [run_all].
  - lia.
  - specialize (IH (snd (run c w))). pose proof (run_budget c w) as Hb.
    rewrite direct_status_calls_cons. lia.
Qed.

(** C5: discovery happens at most once.  From construction, whatever the
    sequence of calls, the log holds at most one status call beyond those
    the caller made through [get_status] itself; and once
    [initializeLimits] has completed, every later call leaves the client's
    fields (both ceilings among them) unchanged, issues no status call of
    its own accord, a further discovery does nothing, and the getters
    return the values they returned before. *)
Theorem discovery_at_most_once
    (cl : APIClient) (o : option MsigsClientOptions.t)
    (cs : list Call) (w : World) :
  (status_calls (sent (run_all cs {| this := constructor cl o; sent := [] |}))
   <= direct_status_calls cs + 1)%nat
  /\ (let w1 := snd (initializeLimits w) in
      let w2 := run_all cs w1 in
      this w2 = this w1
      /\ status_calls (sent w2) =
           (status_calls (sent w1) + direct_status_calls cs)%nat
      /\ initializeLimits w2 = (returned tt, w2)
      /\ getMaxProposalLimit w2 = (fst (getMaxProposalLimit w1), w2)
      /\ getMaxApprovalLimit w2 = (fst (getMaxApprovalLimit w1), w2)).
Proof.
  split.
  - pose proof (run_all_budget cs {| this := constructor cl o; sent := [] |}) as Hb.
    cbn [this sent] in Hb. unfold pending at 2 in Hb.
    cbn [constructor limitsInitialized status_calls List.filter length] in Hb.
    lia.
  - cbv zeta.
    pose proof (initializeLimits_initialized w) as Hi.
    destruct (run_all_initialized cs _ Hi) as [Ht Hs].
    assert (Hi2 : limitsInitialized
                    (this (run_all cs (snd (initializeLimits w)))) = true)
      by now rewrite Ht.
    pose proof (initializeLimits_noop _ Hi) as N1.
    pose proof (initializeLimits_noop _ Hi2) as N2.
    repeat split; try assumption.
    + rewrite !getMaxProposalLimit_eq, N1, N2. cbn [fst snd]. now rewrite Ht.
    + rewrite !getMaxApprovalLimit_eq, N1, N2. cbn [fst snd]. now rewrite Ht.
Qed.

Lemma initializeLimits_known (p a : number) (w : World) :
  known p a (this w) ->
  known p a (this (snd (initializeLimits w)))
  /\ sent (snd (initializeLimits w)) = sent w.
Proof.
  intros [Hp Ha]. split.
  - destruct (initializeLimits_keeps w) as (_ & _ & Kp & Ka).
    split; [now apply Kp | now apply Ka].
  - rewrite initializeLimits_sent, Hp, Ha. cbn.
    now rewrite orb_true_r.
Qed.

Lemma run_known (p a : number) (c : Call) (w : World) :
  known p a (this w) ->
  known p a (this (snd (run c w)))
  /\ status_calls (sent (snd (run c w))) =
       (status_calls (sent w) + (if is_Get_status c then 1 else 0))%nat.
Proof.
  intros Hk.
  destruct (initializeLimits_known p a w Hk) as [Hk1 Hs1].
  destruct (run_world c w) as (base & extra & Hbase & Hrun & _ & Hcount).
  rewrite Hrun. cbn [this sent]. rewrite status_calls_app, Hcount.
  destruct Hbase as [-> | ->].
  - split; [assumption | reflexivity].
  - split; [assumption | now rewrite Hs1].
Qed.

Lemma run_all_known (p a : number) (cs : list Call) (w : World) :
  known p a (this w) ->
  known p a (this (run_all cs w))
  /\ status_calls (sent (run_all cs w)) =
       (status_calls (sent w) + direct_status_calls cs)%nat.
Proof.
  revert w. induction cs as [|c cs IH]; intros w Hk; cbn [run_all].
  - split; [assumption | ]. unfold direct_status_calls. cbn. lia.
  - destruct (run_known p a c w Hk) as [Hk1 Hs1].
    destruct (IH _ Hk1) as [Hk2 Hs2].
    split; [assumption | ].
    rewrite Hs2, Hs1, direct_status_calls_cons. lia.
Qed.

(** C6: with both limits supplied at construction, discovery never issues
    a status call (after any sequence of calls the log holds only the
    status calls the caller made through [get_status] itself), and the
    getters resolve to the supplied values without sending anything. *)
Theorem supplied_limits_skip_discovery
    (cl : APIClient) (p a : number) (cs : list Call) :
  let supplied :=
    Some (MsigsClientOptions.mk (Some p) (Some a)) in
  let w := run_all cs {| this := constructor cl supplied; sent := [] |} in
  status_calls (sent w) = direct_status_calls cs
  /\ fst (getMaxProposalLimit w) = returned (Some p)
  /\ fst (getMaxApprovalLimit w) = returned (Some a)
  /\ sent (snd (getMaxProposalLimit w)) = sent w
  /\ sent (snd (getMaxApprovalLimit w)) = sent w.
Proof.
  cbv zeta.
  set (w0 := {| this := constructor cl _; sent := [] |}).
  assert (Hk0 : known p a (this w0)) by (split; reflexivity).
  destruct (run_all_known p a cs w0 Hk0) as [Hk Hs].
  destruct (initializeLimits_known p a _ Hk) as [[Hp Ha] Hsent].
  rewrite getMaxProposalLimit_eq, getMaxApprovalLimit_eq. cbn [fst snd].
  rewrite Hp, Ha. repeat split; assumption.
Qed.

(** ** The endpoints the client reaches *)

(** Every request a call adds to the log goes to the call's own endpoint,
    except the status call of discovery. *)
Remark run_added (c : Call) (w : World) :
  Forall (fun r => endpoint c = Some (path r) \/ r = status_request)
    (added (sent w) (sent (snd (run c w)))).
Proof.
  destruct (run_world c w) as (base & extra & Hbase & Hrun & Hpaths & _).
  rewrite Hrun. cbn [sent].
  assert (He : Forall (fun r => endpoint c = Some (path r) \/ r = status_request)
                 extra).
  { eapply Forall_impl; [exact Hpaths | ]. intros r Hr. now left. }
  destruct Hbase as [-> | ->].
  - now rewrite added_app.
  - rewrite initializeLimits_sent.
    destruct (limitsInitialized (this w)
              || (negb (is_undefined (maxProposalLimit (this w)))
                  && negb (is_undefined (maxApprovalLimit (this w))))).
    + now rewrite added_app.
    + rewrite <- app_assoc, added_app. constructor; [now right | exact He].
Qed.

(** C8: the debug operation takes a proposer and a proposal name, and
    optionally a version sequence number; it sends one request to the fixed
    path /v1/proposals/debug_proposal, whose parameters are the two
    required identifiers and [globalseq] exactly when it was supplied,
    with no limit and no discovery. *)
Theorem debug_proposal_request
    (proposer proposalName : NameType)
    (options : option DebugProposalOptions.t) (w : World) :
  exists ps : gmap string wire,
    let request := {| path := "/v1/proposals/debug_proposal"; params := ps |} in
    map_async response (debug_proposal proposer proposalName options) w
      = (forwarded (client (this w) (sent w) request),
         {| this := this w; sent := sent w ++ [request] |})
    /\ String.prefix "/v1/proposals/" (path request) = true
    /\ is_debug_path (path request) = true
    /\ ps !! "proposer" = Some (Name_from proposer)
    /\ ps !! "proposal_name" = Some (Name_from proposalName)
    /\ ps !! "globalseq"
         = UInt64_from <$> field options DebugProposalOptions.globalseq
    /\ (forall k, k <> "proposer" -> k <> "proposal_name" ->
                  k <> "globalseq" -> ps !! k = None).
Proof.
  eexists. cbv zeta. split; [ | split; [ | split; [ | split; [ | split; [ | split]]]]].
  - unfold debug_proposal. rewrite map_async_call. reflexivity.
  - reflexivity.
  - reflexivity.
  - rewrite assign_lookup_ne by discriminate.
    rewrite lookup_insert_ne by discriminate. apply lookup_insert_eq.
  - rewrite assign_lookup_ne by discriminate. apply lookup_insert_eq.
  - destruct options as [[[g|]]|]; cbn [field fmap option_fmap option_map assign
      DebugProposalOptions.globalseq].
    + apply lookup_insert_eq.
    + rewrite !lookup_insert_ne by discriminate. apply lookup_empty.
    + rewrite !lookup_insert_ne by discriminate. apply lookup_empty.
  - intros k H1 H2 H3. rewrite assign_lookup_ne by congruence.
    rewrite !lookup_insert_ne by congruence. apply lookup_empty.
Qed.

(** ** The exact request of every operation *)

(** X1: an operation that throws no [Error] of its own, neither the
    validation error nor one from a conversion, sends as its last request
    exactly [request_of]: its own endpoint, with the required identifiers
    and the filters the caller supplied, each under its conversion, and
    nothing else. *)
Theorem request_parameters_exact (c : Call) (r : Request) (w : World) :
  request_of c = Some r ->
  (forall message, fst (run c w) <> thrown (Error message)) ->
  last (sent (snd (run c w))) = Some r
  /\ endpoint c = Some (path r)
  /\ (forall k, params r !! k =
                  match required_params c !! k with
                  | Some v => Some v
                  | None => optional_params c !! k
                  end).
Proof.
  intros Hr Hok. pose proof (run_request c r w Hr) as Hrun.
  split; [ | split].
  - destruct (globalseq_error c);
      [exfalso; eapply Hok; rewrite Hrun; reflexivity | ].
    destruct (over_ceiling c w);
      [exfalso; eapply Hok; rewrite Hrun; reflexivity | ].
    destruct (limit_error c);
      [exfalso; eapply Hok; rewrite Hrun; reflexivity | ].
    destruct (offset_error c);
      [exfalso; eapply Hok; rewrite Hrun; reflexivity | ].
    rewrite Hrun. cbn [snd sent]. apply last_snoc.
  - now apply request_of_endpoint.
  - intros k. unfold request_of in Hr. destruct (endpoint c); [ | discriminate].
    injection Hr as <-. cbn [params]. rewrite lookup_union.
    destruct (required_params c !! k), (optional_params c !! k); reflexivity.
Qed.



(** X3: an operation adds nothing to the transport's answer.  When the
    library accepts the values the call has it convert, the operation
    returns a payload exactly when it passed validation and the transport
    resolved its request with that payload, and it throws a transport
    error exactly when it passed validation and the transport rejected its
    request for that reason. *)
Theorem transport_answer_passed_through
    (c : Call) (r : Request) (w : World) :
  request_of c = Some r ->
  convertible c ->
  let base := validation_world c w in
  (forall payload,
     fst (run c w) = returned (response payload)
     <-> over_ceiling c w = false
         /\ client (this base) (sent base) r = resolved payload)
  /\ (forall reason,
     fst (run c w) = thrown (transport_error reason)
     <-> over_ceiling c w = false
         /\ client (this base) (sent base) r = rejected reason).
Proof.
  intros Hr (Hg & Hl & Ho) base. subst base.
  rewrite (run_request c r w Hr), Hg, Hl, Ho.
  destruct (over_ceiling c w); cbn [fst].
  - split; intros x; split; intros H; try discriminate;
      destruct H; discriminate.
  - destruct (client (this (validation_world c w))
                (sent (validation_world c w)) r) as [payload | reason];
      cbn [forwarded].
    + split; intros x; split; intros H.
      * injection H as <-. now split.
      * destruct H as [_ H]. now injection H as <-.
      * discriminate.
      * destruct H; discriminate.
    + split; intros x; split; intros H.
      * discriminate.
      * destruct H; discriminate.
      * injection H as <-. now split.
      * destruct H as [_ H]. now injection H as <-.
Qed.

(** X4: an operation called without a limit never runs discovery.  When
    the library accepts the values the call has it convert, then even on
    a client whose limits are unknown the operation sends its one request
    at once, leaves the client's fields as they are and ends as the
    transport answers. *)
Theorem no_limit_no_discovery (c : Call) (r : Request) (w : World) :
  request_of c = Some r ->
  limit_of c = None ->
  convertible c ->
  run c w = (forwarded (client (this w) (sent w) r),
             {| this := this w; sent := sent w ++ [r] |}).
Proof.
  intros Hr Hl (Hg & Hle & Hoe). rewrite (run_request c r w Hr), Hg, Hle, Hoe.
  unfold over_ceiling, validation_world. now rewrite Hl.
Qed.

(** X5: the client itself never validates an offset.  Whatever its value,
    negative included, a call that throws no [Error] (so the library took
    the offset) sends it as [Int32.from (offset)] under the key
    [offset]. *)
Theorem offset_passed_verbatim (c : Call) (offset : number) (w : World) :
  offset_of c = Some offset ->
  (forall message, fst (run c w) <> thrown (Error message)) ->
  exists r : Request,
    last (sent (snd (run c w))) = Some r
    /\ endpoint c = Some (path r)
    /\ params r !! "offset" = Some (Int32_from offset).
Proof.
  intros Ho Hok.
  destruct (offset_of_request c offset Ho) as (r & Hr & Hoff).
  exists r. split; [ | split; [now apply request_of_endpoint | exact Hoff]].
  pose proof (run_request c r w Hr) as Hrun.
  destruct (globalseq_error c);
    [exfalso; eapply Hok; rewrite Hrun; reflexivity | ].
  destruct (over_ceiling c w);
    [exfalso; eapply Hok; rewrite Hrun; reflexivity | ].
  destruct (limit_error c);
    [exfalso; eapply Hok; rewrite Hrun; reflexivity | ].
  destruct (offset_error c);
    [exfalso; eapply Hok; rewrite Hrun; reflexivity | ].
  rewrite Hrun. cbn [snd sent]. apply last_snoc.
Qed.


(** ** More on discovery *)

(** X6: when the status call succeeds, a limit that was not supplied
    resolves to the ceiling the service reports if that is a non-zero
    number, and to the default (20 for proposals, 100 for approvals) if
    the report lacks the field; a supplied limit is returned as supplied,
    whatever the service reports. *)
Theorem discovery_adopts_reported_ceilings
    (cl : APIClient) (o : option MsigsClientOptions.t)
    (log : list Request) (payload : Payload) :
  cl log status_request = resolved payload ->
  let w := {| this := constructor cl o; sent := log |} in
  let status := as_status payload in
  let given_proposal := field o MsigsClientOptions.maxProposalLimit in
  let given_approval := field o MsigsClientOptions.maxApprovalLimit in
  (forall v, given_proposal = Some v ->
             fst (getMaxProposalLimit w) = returned (Some v))
  /\ (forall n, given_proposal = None ->
                ServiceStatus.max_proposal_results status = Some n ->
                n <> 0 ->
                fst (getMaxProposalLimit w) = returned (Some n))
  /\ (given_proposal = None ->
      ServiceStatus.max_proposal_results status = None ->
      fst (getMaxProposalLimit w) = returned (Some 20))
  /\ (forall v, given_approval = Some v ->
                fst (getMaxApprovalLimit w) = returned (Some v))
  /\ (forall n, given_approval = None ->
                ServiceStatus.max_approval_results status = Some n ->
                n <> 0 ->
                fst (getMaxApprovalLimit w) = returned (Some n))
  /\ (given_approval = None ->
      ServiceStatus.max_approval_results status = None ->
      fst (getMaxApprovalLimit w) = returned (Some 100)).
Proof.
  intros H. unfold status_request in H. cbv zeta.
  repeat match goal with |- _ /\ _ => split end; intros;
    destruct o as [[[p|] [a|]]|];
    cbn [field MsigsClientOptions.maxProposalLimit
         MsigsClientOptions.maxApprovalLimit] in *;
    try discriminate;
    repeat match goal with
           | E : Some _ = Some _ |- _ => injection E as ->
           end;
    run_getters; rewrite ?H; cbv beta iota;
    repeat match goal with
           | E : ServiceStatus.max_proposal_results _ = _ |- _ => rewrite E
           | E : ServiceStatus.max_approval_results _ = _ |- _ => rewrite E
           end;
    try reflexivity;
    match goal with
    | N : ?n <> 0 |- _ => rewrite (proj2 (Z.eqb_neq n 0) N); reflexivity
    end.
Qed.

(** X7: unless both limits were supplied, the first use of either getter
    issues exactly one status call, also when the limit it returns is the
    supplied one. *)
Theorem partial_supply_still_discovers
    (cl : APIClient) (o : option MsigsClientOptions.t) (log : list Request) :
  field o MsigsClientOptions.maxProposalLimit = None
  \/ field o MsigsClientOptions.maxApprovalLimit = None ->
  let w := {| this := constructor cl o; sent := log |} in
  sent (snd (getMaxProposalLimit w)) = (log ++ [status_request])%list
  /\ sent (snd (getMaxApprovalLimit w)) = (log ++ [status_request])%list
  /\ (forall v, field o MsigsClientOptions.maxProposalLimit = Some v ->
                fst (getMaxProposalLimit w) = returned (Some v))
  /\ (forall v, field o MsigsClientOptions.maxApprovalLimit = Some v ->
                fst (getMaxApprovalLimit w) = returned (Some v)).
Proof.
  intros H. cbv zeta.
  rewrite getMaxProposalLimit_eq, getMaxApprovalLimit_eq. cbn [fst snd].
  rewrite initializeLimits_sent. cbn [this sent constructor limitsInitialized
    maxProposalLimit maxApprovalLimit orb].
  destruct (initializeLimits_keeps {| this := constructor cl o; sent := log |})
    as (_ & _ & Kp & Ka).
  cbn [this constructor maxProposalLimit maxApprovalLimit] in Kp, Ka.
  assert (E : negb (is_undefined (field o MsigsClientOptions.maxProposalLimit))
              && negb (is_undefined (field o MsigsClientOptions.maxApprovalLimit))
              = false).
  { destruct H as [-> | ->]; cbn; [reflexivity | apply andb_false_r]. }
  rewrite E. repeat split; intros v Hv; f_equal; auto.
Qed.

Lemma run_keeps (c : Call) (w : World) :
  (forall v, maxProposalLimit (this w) = Some v ->
             maxProposalLimit (this (snd (run c w))) = Some v)
  /\ (forall v, maxApprovalLimit (this w) = Some v ->
                maxApprovalLimit (this (snd (run c w))) = Some v).
Proof.
  destruct (run_world c w) as (base & extra & Hbase & Hrun & _ & _).
  rewrite Hrun. cbn [this].
  destruct Hbase as [-> | ->]; [now split | ].
  destruct (initializeLimits_keeps w) as (_ & _ & Kp & Ka). now split.
Qed.

(** X8: a ceiling that is known, supplied or discovered, is never changed
    by any later call: whatever the calls and whatever the service reports
    afterwards, the field keeps its value. *)
Theorem known_ceiling_never_changes (cs : list Call) (w : World) :
  (forall v, maxProposalLimit (this w) = Some v ->
             maxProposalLimit (this (run_all cs w)) = Some v)
  /\ (forall v, maxApprovalLimit (this w) = Some v ->
                maxApprovalLimit (this (run_all cs w)) = Some v).
Proof.
  revert w. induction cs as [|c cs IH]; intros w; cbn [run_all].
  - now split.
  - destruct (run_keeps c w) as [Kp Ka].
    destruct (IH (snd (run c w))) as [Ip Ia].
    split; intros v Hv; [apply Ip, Kp | apply Ia, Ka]; exact Hv.
Qed.

Lemma run_settled (c : Call) (w : World) :
  settled (this w) -> settled (this (snd (run c w))).
Proof.
  intros Hs.
  destruct (run_world c w) as (base & extra & Hbase & Hrun & _ & _).
  rewrite Hrun. cbn [this].
  destruct Hbase as [-> | ->]; [exact Hs | ].
  now apply initializeLimits_settled.
Qed.

Lemma run_all_settled (cs : list Call) (w : World) :
  settled (this w) -> settled (this (run_all cs w)).
Proof.
  revert w. induction cs as [|c cs IH]; intros w Hs; cbn [run_all].
  - exact Hs.
  - apply IH. now apply run_settled.
Qed.

(** X9: on a client made by the constructor, after any sequence of calls
    and whatever the transport did, both getters resolve to a number:
    the fields asserted by [this.maxProposalLimit!] and
    [this.maxApprovalLimit!] are defined when they are returned. *)
Theorem getters_always_defined
    (cl : APIClient) (o : option MsigsClientOptions.t) (cs : list Call) :
  let w := run_all cs (fresh cl o) in
  exists p a : number,
    fst (getMaxProposalLimit w) = returned (Some p)
    /\ fst (getMaxApprovalLimit w) = returned (Some a).
Proof.
  cbv zeta.
  assert (Hs : settled (this (run_all cs (fresh cl o)))).
  { apply run_all_settled. intros Hi. discriminate Hi. }
  apply initializeLimits_settled in Hs.
  destruct (Hs (initializeLimits_initialized _)) as [[p Hp] [a Ha]].
  exists p, a. rewrite getMaxProposalLimit_eq, getMaxApprovalLimit_eq.
  cbn [fst]. now rewrite Hp, Ha.
Qed.

(** X10: a call only ever appends to the log.  It adds at most two
    requests, each of them either discovery's status call or a request to
    the call's own endpoint, and once the limits are resolved it adds at
    most one. *)
Theorem calls_only_extend_log (c : Call) (w : World) :
  exists extra : list Request,
    sent (snd (run c w)) = (sent w ++ extra)%list
    /\ (length extra <= 2)%nat
    /\ Forall (fun r => endpoint c = Some (path r) \/ r = status_request) extra
    /\ (limitsInitialized (this w) = true -> (length extra <= 1)%nat).
Proof.
  destruct (run_shape c w) as (base & extra & Hbase & Hrun & Hall & _ & Hlen).
  assert (Hall' : Forall (fun r => endpoint c = Some (path r)
                                   \/ r = status_request) extra).
  { eapply Forall_impl; [exact Hall | ]. intros x Hx. now left. }
  rewrite Hrun. cbn [sent]. destruct Hbase as [-> | ->].
  - exists extra. split; [reflexivity | ]. split; [lia | ].
    split; [exact Hall' | ]. intros _. exact Hlen.
  - destruct (initializeLimits_prefix w) as (pre & Hpre & Hl & Hp & Hi).
    exists (pre ++ extra)%list. rewrite Hpre, <- app_assoc.
    split; [reflexivity | ]. rewrite length_app. split; [lia | ]. split.
    + apply Forall_app. split; [ | exact Hall'].
      eapply Forall_impl; [exact Hp | ]. intros x Hx. now right.
    + intros H. rewrite (Hi H). cbn. lia.
Qed.

(** ** Pagination *)

(** C1 (as amended): for safe integers [offset], [limit] and [total] with
    [limit > 0], and with [offset + limit] safe when [more] holds,
    [getPaginationInfo] returns
    [currentPage = floor (offset / limit) + 1],
    [totalPages = ceil (total / limit)], [hasMore = more],
    [hasPrevious] true exactly when [offset > 0], [nextOffset] present
    exactly when [more] holds and then [offset + limit], [previousOffset]
    present exactly when [offset > 0] and then [max 0 (offset - limit)];
    and [total = 0] gives [totalPages = 0]. *)
Theorem getPaginationInfo_spec (offset limit total : number) (more : bool) :
  limit > 0 ->
  safe offset -> safe limit -> safe total ->
  (more = true -> safe (offset + limit)) ->
  let p := getPaginationInfo offset limit total more in
  PaginationInfo.currentPage p = Qfloor (quotient offset limit) + 1
  /\ PaginationInfo.totalPages p = Qceiling (quotient total limit)
  /\ PaginationInfo.hasMore p = more
  /\ (PaginationInfo.hasPrevious p = true <-> offset > 0)
  /\ (is_Some (PaginationInfo.nextOffset p) <-> more = true)
  /\ (more = true -> PaginationInfo.nextOffset p = Some (offset + limit))
  /\ (is_Some (PaginationInfo.previousOffset p) <-> offset > 0)
  /\ (offset > 0 ->
      PaginationInfo.previousOffset p = Some (Z.max 0 (offset - limit)))
  /\ (total = 0 -> PaginationInfo.totalPages p = 0).
Proof.
  intros Hl _ _ _ _. rewrite Qfloor_quotient, Qceiling_quotient by lia.
  unfold getPaginationInfo, Math_floor_div, Math_ceil_div, Math_max.
  cbv zeta.
  cbn [PaginationInfo.currentPage PaginationInfo.totalPages
       PaginationInfo.hasMore PaginationInfo.hasPrevious
       PaginationInfo.nextOffset PaginationInfo.previousOffset].
  repeat split; try reflexivity.
  - intros H. apply Z.ltb_lt in H. lia.
  - intros H. apply Z.ltb_lt. lia.
  - destruct more; [reflexivity | intros [x Hx]; discriminate].
  - intros ->. now exists (offset + limit).
  - now intros ->.
  - destruct (0 <? offset) eqn:E.
    + apply Z.ltb_lt in E. lia.
    + intros [x Hx]; discriminate.
  - intros H. assert (E : (0 <? offset) = true) by (apply Z.ltb_lt; lia).
    rewrite E. now eexists.
  - intros H. assert (E : (0 <? offset) = true) by (apply Z.ltb_lt; lia).
    now rewrite E.
  - intros ->. reflexivity.
Qed.

(** X11: the page number and the page count agree.  For safe integers with
    [limit > 0], an offset below [total] lies on a page that exists
    ([currentPage <= totalPages]); an offset at or past the end of the last
    page is not clamped: its page number exceeds [totalPages]. *)
Theorem currentPage_against_totalPages
    (offset limit total : number) (more : bool) :
  limit > 0 ->
  safe offset -> safe limit -> safe total ->
  let p := getPaginationInfo offset limit total more in
  (offset < total ->
   PaginationInfo.currentPage p <= PaginationInfo.totalPages p)
  /\ (PaginationInfo.totalPages p * limit <= offset ->
      PaginationInfo.totalPages p < PaginationInfo.currentPage p).
Proof.
  intros Hl _ _ _. cbv zeta.
  cbn [getPaginationInfo PaginationInfo.currentPage PaginationInfo.totalPages].
  unfold Math_floor_div.
  pose proof (floor_div_bounds offset limit ltac:(lia)) as Hf.
  pose proof (ceil_div_bounds total limit ltac:(lia)) as Hc.
  split; intros H; nia.
Qed.

(** X12: following [nextOffset] and then [previousOffset] comes back.  For
    safe integers with [limit > 0], [offset >= 0] and [offset + limit]
    safe, the page that starts at the next offset is numbered one more,
    and its previous offset is the offset one came from. *)
Theorem next_then_previous
    (offset limit total total' : number) (more' : bool) :
  limit > 0 ->
  offset >= 0 ->
  safe offset -> safe limit -> safe (offset + limit) ->
  let p := getPaginationInfo offset limit total true in
  exists next : number,
    PaginationInfo.nextOffset p = Some next
    /\ (let p' := getPaginationInfo next limit total' more' in
        PaginationInfo.previousOffset p' = Some offset
        /\ PaginationInfo.hasPrevious p' = true
        /\ PaginationInfo.currentPage p'
             = PaginationInfo.currentPage p + 1).
Proof.
  intros Hl Ho _ _ _. cbv zeta. exists (offset + limit).
  cbn [getPaginationInfo PaginationInfo.nextOffset
       PaginationInfo.previousOffset PaginationInfo.hasPrevious
       PaginationInfo.currentPage].
  assert (E : (0 <? offset + limit) = true) by (apply Z.ltb_lt; lia).
  rewrite E. unfold Math_max, Math_floor_div.
  split; [reflexivity | ]. split; [ | split; [reflexivity | ]].
  - f_equal. lia.
  - replace (offset + limit) with (offset + 1 * limit) by lia.
    rewrite Z.div_add by lia. lia.
Qed.

(** X13: for safe integers with [limit > 0], the previous offset, when
    there is one, is never negative and lies strictly before the offset;
    it is [offset - limit] from the second page on, and is clamped to 0
    exactly when the offset is within the first [limit] items. *)
Theorem previousOffset_range
    (offset limit total previous : number) (more : bool) :
  limit > 0 ->
  safe offset -> safe limit ->
  PaginationInfo.previousOffset (getPaginationInfo offset limit total more)
    = Some previous ->
  0 <= previous < offset
  /\ (limit <= offset -> previous = offset - limit)
  /\ (previous = 0 <-> offset <= limit).
Proof.
  intros Hl _ _. cbn [getPaginationInfo PaginationInfo.previousOffset].
  unfold Math_max. destruct (Z.ltb_spec 0 offset) as [Hpos | Hneg].
  - intros H. injection H as <-. lia.
  - discriminate.
Qed.

(** X14: the page number is positive exactly for a non-negative offset.
    For [limit > 0], offsets 0 to [limit - 1] are page 1, and a negative
    offset, which the helper does not reject, gives a page number of 0 or
    less with no previous page. *)
Theorem currentPage_sign (offset limit total : number) (more : bool) :
  limit > 0 ->
  let p := getPaginationInfo offset limit total more in
  (1 <= PaginationInfo.currentPage p <-> 0 <= offset)
  /\ (PaginationInfo.currentPage p = 1 <-> 0 <= offset < limit)
  /\ (offset < 0 ->
      PaginationInfo.hasPrevious p = false
      /\ PaginationInfo.previousOffset p = None).
Proof.
  intros Hl. cbv zeta.
  cbn [getPaginationInfo PaginationInfo.currentPage
       PaginationInfo.hasPrevious PaginationInfo.previousOffset].
  unfold Math_floor_div.
  pose proof (floor_div_bounds offset limit ltac:(lia)) as Hf.
  split; [ | split].
  - split; intros H; nia.
  - split; intros H; nia.
  - intros H. assert (E : (0 <? offset) = false) by (apply Z.ltb_ge; lia).
    now rewrite E.
Qed.

End Client.

(** ** The helper on doubles and on integers *)

Ltac safely := unfold safe; split; apply Z.leb_le; reflexivity.

Example doubles_agree_first_page :
  integers (Double.getPaginationInfo (Double.of_Z 0) (Double.of_Z 10)
              (Double.of_Z 50) true)
  = Some (getPaginationInfo 0 10 50 true).
Proof. reflexivity. Qed.

Example doubles_agree_last_page :
  integers (Double.getPaginationInfo (Double.of_Z 40) (Double.of_Z 10)
              (Double.of_Z 50) false)
  = Some (getPaginationInfo 40 10 50 false).
Proof. reflexivity. Qed.

Example doubles_agree_partial_page :
  integers (Double.getPaginationInfo (Double.of_Z 7) (Double.of_Z 3)
              (Double.of_Z 51) true)
  = Some (getPaginationInfo 7 3 51 true).
Proof. reflexivity. Qed.

Example doubles_agree_negative_offset :
  integers (Double.getPaginationInfo (Double.of_Z (-7)) (Double.of_Z 2)
              (Double.of_Z 5) false)
  = Some (getPaginationInfo (-7) 2 5 false).
Proof. reflexivity. Qed.

Example doubles_agree_largest_safe :
  integers (Double.getPaginationInfo (Double.of_Z (2 ^ 53 - 1))
              (Double.of_Z 3) (Double.of_Z (2 ^ 53 - 1)) false)
  = Some (getPaginationInfo (2 ^ 53 - 1) 3 (2 ^ 53 - 1) false).
Proof. vm_compute. reflexivity. Qed.

Example doubles_agree_largest_safe_sum :
  integers (Double.getPaginationInfo (Double.of_Z (2 ^ 53 - 8))
              (Double.of_Z 7) (Double.of_Z (- (2 ^ 53 - 1))) true)
  = Some (getPaginationInfo (2 ^ 53 - 8) 7 (- (2 ^ 53 - 1)) true).
Proof. vm_compute. reflexivity. Qed.

(** On doubles and on integers the helper computes the same results at
    the 15 * 15 * 15 * 2 inputs made of the sample numbers, wherever the
    input is safe. *)
Example doubles_agree_on_samples : agree_on_samples = true.
Proof. vm_compute. reflexivity. Qed.

(** Beyond the safe integers the sums round: at offset 2^53 and limit 1
    the page number and the next offset are 2^53, not 2^53 + 1. *)
Lemma getPaginationInfo_spec_counterexample :
  let p := Double.getPaginationInfo (Double.of_Z (2 ^ 53)) (Double.of_Z 1)
             (Double.of_Z 50) true in
  1 > 0
  /\ Double.to_Z (Double.currentPage p) = Some (2 ^ 53)
  /\ Double.to_Z (Double.currentPage p)
       <> Some (Qfloor (quotient (2 ^ 53) 1) + 1)
  /\ Double.to_Z_option (Double.nextOffset p) = Some (Some (2 ^ 53))
  /\ Double.to_Z_option (Double.nextOffset p) <> Some (Some (2 ^ 53 + 1)).
Proof.
  cbv zeta. split; [lia | ]. split; [vm_compute; reflexivity | ].
  split; [vm_compute; discriminate | ].
  split; [vm_compute; reflexivity | vm_compute; discriminate].
Qed.

Lemma getPaginationInfo_spec_witness :
  10 > 0 /\ safe 40 /\ safe 10 /\ safe 50 /\
  let p := getPaginationInfo 40 10 50 false in
  PaginationInfo.currentPage p = Qfloor (quotient 40 10) + 1
  /\ PaginationInfo.totalPages p = Qceiling (quotient 50 10)
  /\ PaginationInfo.hasMore p = false
  /\ (PaginationInfo.hasPrevious p = true <-> 40 > 0)
  /\ (is_Some (PaginationInfo.nextOffset p) <-> false = true)
  /\ (false = true -> PaginationInfo.nextOffset p = Some (40 + 10))
  /\ (is_Some (PaginationInfo.previousOffset p) <-> 40 > 0)
  /\ (40 > 0 ->
      PaginationInfo.previousOffset p = Some (Z.max 0 (40 - 10)))
  /\ (50 = 0 -> PaginationInfo.totalPages p = 0).
Proof.
  split; [lia | ]. split; [safely | ]. split; [safely | ]. split; [safely | ].
  apply (getPaginationInfo_spec 40 10 50 false);
    [lia | safely | safely | safely | discriminate].
Defined.

(** ** The properties at concrete inputs *)

Example getPaginationInfo_first_page :
  getPaginationInfo 0 10 50 true =
    {| PaginationInfo.currentPage := 1;
       PaginationInfo.pageSize := 10;
       PaginationInfo.totalResults := 50;
       PaginationInfo.totalPages := 5;
       PaginationInfo.hasMore := true;
       PaginationInfo.hasPrevious := false;
       PaginationInfo.nextOffset := Some 10;
       PaginationInfo.previousOffset := None |}.
Proof. reflexivity. Qed.

Example getPaginationInfo_middle_page :
  getPaginationInfo 10 10 50 true =
    {| PaginationInfo.currentPage := 2;
       PaginationInfo.pageSize := 10;
       PaginationInfo.totalResults := 50;
       PaginationInfo.totalPages := 5;
       PaginationInfo.hasMore := true;
       PaginationInfo.hasPrevious := true;
       PaginationInfo.nextOffset := Some 20;
       PaginationInfo.previousOffset := Some 0 |}.
Proof. reflexivity. Qed.

Example getPaginationInfo_last_page :
  getPaginationInfo 40 10 50 false =
    {| PaginationInfo.currentPage := 5;
       PaginationInfo.pageSize := 10;
       PaginationInfo.totalResults := 50;
       PaginationInfo.totalPages := 5;
       PaginationInfo.hasMore := false;
       PaginationInfo.hasPrevious := true;
       PaginationInfo.nextOffset := None;
       PaginationInfo.previousOffset := Some 30 |}.
Proof. reflexivity. Qed.

Example getPaginationInfo_partial_page :
  PaginationInfo.totalPages (getPaginationInfo 7 10 51 true) = 6
  /\ PaginationInfo.previousOffset (getPaginationInfo 7 10 51 true) = Some 0.
Proof. split; reflexivity. Qed.

Example history_limit_50 :
  get_proposal_history ranges "alice" "upgrade"
    (Some (GetProposalHistoryOptions.mk None (Some 50) None))
    (fresh (service (Some 20) (Some 100)) None)
  = (thrown (Error "Limit cannot exceed 20"),
     {| this := set_limitsInitialized true
                  (set_maxApprovalLimit (Some 100)
                     (set_maxProposalLimit (Some 20)
                        (constructor (service (Some 20) (Some 100)) None)));
        sent := [status_request] |}).
Proof. reflexivity. Qed.

Example offset_beyond_int32 :
  run ranges
    (Get_proposals (Some (GetProposalsOptions.mk None None None (Some (2 ^ 31)))))
    (fresh (service (Some 20) (Some 100)) None)
  = (thrown (Error "Number 2147483648 overflows int32"),
     fresh (service (Some 20) (Some 100)) None).
Proof. reflexivity. Qed.

Example limit_below_int32 :
  fst (run ranges
         (Get_active (Some (GetActiveOptions.mk (Some (-2147483649)) None None)))
         (fresh (service (Some 20) (Some 100)) None))
  = thrown (Error "Number -2147483649 underflows int32").
Proof. reflexivity. Qed.

Example globalseq_negative :
  run ranges
    (Get_proposal "alice" "upgrade"
       (Some (GetProposalOptions.mk (Some (-1)) None)))
    (fresh (service (Some 20) (Some 100)) None)
  = (thrown (Error "Number -1 underflows uint64"),
     fresh (service (Some 20) (Some 100)) None).
Proof. reflexivity. Qed.

Example custom_proposal_limit :
  fst (getMaxProposalLimit
         (fresh (service (Some 20) (Some 100))
            (Some (MsigsClientOptions.mk (Some 50) None))))
  = returned (Some 50).
Proof. reflexivity. Qed.

Example getMaxProposalLimit_twice :
  let w := run_all ranges [GetMaxProposalLimit; GetMaxProposalLimit]
             (fresh (service (Some 20) (Some 100)) None) in
  status_calls (sent w) = 1%nat
  /\ maxProposalLimit (this w) = Some 20.
Proof. split; reflexivity. Qed.

Example supplied_limits_no_status_call :
  run ranges GetMaxProposalLimit
    (fresh unreachable (Some (MsigsClientOptions.mk (Some 50) (Some 200))))
  = (returned (ceiling (Some 50)),
     {| this := set_limitsInitialized true
                  (constructor unreachable
                     (Some (MsigsClientOptions.mk (Some 50) (Some 200))));
        sent := [] |}).
Proof. reflexivity. Qed.






Lemma discovery_absorbs_transport_failure_witness :
  unreachable [] status_request = rejected "Network error"
  /\ fst (getMaxProposalLimit (fresh unreachable None)) = returned (Some 20)
  /\ fst (getMaxApprovalLimit (fresh unreachable None)) = returned (Some 100).
Proof.
  split; [reflexivity | ].
  pose proof (discovery_absorbs_transport_failure
                unreachable None [] "Network error" eq_refl) as H.
  cbv zeta in H. destruct H as (_ & Hp & Ha & _).
  unfold fresh. rewrite Hp, Ha. split; reflexivity.
Defined.

Lemma zero_ceiling_resolves_to_default_witness :
  let payload := {| json := "/v1/proposals/get_status";
                    as_status := sample_status (Some 0) (Some 0) |} in
  service (Some 0) (Some 0) [] status_request = resolved payload
  /\ fst (getMaxProposalLimit (fresh (service (Some 0) (Some 0)) None))
       = returned (Some 20)
  /\ fst (getMaxApprovalLimit (fresh (service (Some 0) (Some 0)) None))
       = returned (Some 100).
Proof.
  cbv zeta. split; [reflexivity | ].
  pose proof (zero_ceiling_resolves_to_default
                (service (Some 0) (Some 0)) None [] _ eq_refl) as H.
  cbv zeta in H. destruct H as [Hp Ha]. split.
  - apply Hp; reflexivity.
  - apply Ha; reflexivity.
Defined.

Lemma no_filters_only_required_witness :
  let c := Get_proposal_history "alice" "upgrade" None in
  let w := fresh (service (Some 20) (Some 100)) None in
  no_filters c = true
  /\ endpoint c = Some "/v1/proposals/get_proposal_history"
  /\ sent (snd (run ranges c w)) =
       [ {| path := "/v1/proposals/get_proposal_history";
            params := {[ "proposer" := Name_from "alice";
                         "proposal_name" := Name_from "upgrade" ]} |} ].
Proof.
  cbv zeta. split; [reflexivity | ]. split; [reflexivity | ].
  pose proof (no_filters_only_required ranges
                (Get_proposal_history "alice" "upgrade" None)
                "/v1/proposals/get_proposal_history"
                (fresh (service (Some 20) (Some 100)) None)
                eq_refl eq_refl) as H.
  destruct H as [H _]. cbv zeta in H. rewrite H. reflexivity.
Defined.

(** ** The further properties at concrete inputs *)

Lemma request_parameters_exact_witness :
  let c := Get_approver_proposals "bob"
             (Some (GetApproverProposalsOptions.mk
                      (Some "proposed") (Some false) None None)) in
  let r := {| path := "/v1/proposals/get_approver_proposals";
              params := {[ "approver" := Name_from "bob";
                           "status" := str "proposed";
                           "include_approved" := boolean false ]} |} in
  let w := fresh (service (Some 20) (Some 100)) None in
  request_of c = Some r
  /\ (forall message, fst (run ranges c w) <> thrown (Error message))
  /\ last (sent (snd (run ranges c w))) = Some r.
Proof.
  cbv zeta.
  assert (Hok : forall message,
             fst (run ranges
                    (Get_approver_proposals "bob"
                       (Some (GetApproverProposalsOptions.mk
                                (Some "proposed") (Some false) None None)))
                    (fresh (service (Some 20) (Some 100)) None))
             <> thrown (Error message)).
  { intros message H. vm_compute in H. discriminate H. }
  split; [reflexivity | ]. split; [exact Hok | ].
  match goal with
  | |- last (sent (snd (run ranges ?c ?w))) = Some ?r =>
      exact (proj1 (request_parameters_exact ranges c r w eq_refl Hok))
  end.
Defined.


Lemma transport_answer_passed_through_witness :
  request_of Get_status = Some status_request
  /\ convertible ranges Get_status
  /\ fst (run ranges Get_status (fresh unreachable None))
       = thrown (transport_error "Network error").
Proof.
  assert (Hc : convertible ranges Get_status) by (repeat split; reflexivity).
  split; [reflexivity | ]. split; [exact Hc | ].
  apply (proj2 (transport_answer_passed_through ranges
                  Get_status status_request (fresh unreachable None)
                  eq_refl Hc)).
  split; reflexivity.
Defined.

Lemma no_limit_no_discovery_witness :
  let c := Get_proposal "alice" "upgrade"
             (Some (GetProposalOptions.mk (Some 1001) None)) in
  let r := {| path := "/v1/proposals/get_proposal";
              params := {[ "proposer" := Name_from "alice";
                           "proposal_name" := Name_from "upgrade";
                           "globalseq" := UInt64_from 1001 ]} |} in
  let w := fresh (service None None) None in
  request_of c = Some r
  /\ limit_of c = None
  /\ convertible ranges c
  /\ run ranges c w = (forwarded (client (this w) (sent w) r),
                       {| this := this w; sent := sent w ++ [r] |}).
Proof.
  cbv zeta. split; [reflexivity | ]. split; [reflexivity | ].
  assert (Hc : convertible ranges
                 (Get_proposal "alice" "upgrade"
                    (Some (GetProposalOptions.mk (Some 1001) None))))
    by (repeat split; reflexivity).
  split; [exact Hc | ].
  apply no_limit_no_discovery; [reflexivity | reflexivity | exact Hc].
Defined.

Lemma offset_passed_verbatim_witness :
  let c := Get_proposals
             (Some (GetProposalsOptions.mk None None None (Some (-5)))) in
  let w := fresh (service (Some 20) (Some 100)) None in
  offset_of c = Some (-5)
  /\ (forall message, fst (run ranges c w) <> thrown (Error message))
  /\ exists r : Request,
       last (sent (snd (run ranges c w))) = Some r
       /\ endpoint c = Some (path r)
       /\ params r !! "offset" = Some (Int32_from (-5)).
Proof.
  cbv zeta.
  assert (Hok : forall message,
             fst (run ranges
                    (Get_proposals
                       (Some (GetProposalsOptions.mk None None None
                                (Some (-5)))))
                    (fresh (service (Some 20) (Some 100)) None))
             <> thrown (Error message)).
  { intros message H. vm_compute in H. discriminate H. }
  split; [reflexivity | ]. split; [exact Hok | ].
  apply offset_passed_verbatim; [reflexivity | exact Hok].
Defined.

Lemma discovery_adopts_reported_ceilings_witness :
  let cl := service (Some 50) None in
  let payload := {| json := "/v1/proposals/get_status";
                    as_status := sample_status (Some 50) None |} in
  cl [] status_request = resolved payload
  /\ fst (getMaxProposalLimit (fresh cl None)) = returned (Some 50)
  /\ fst (getMaxApprovalLimit (fresh cl None)) = returned (Some 100).
Proof.
  cbv zeta. split; [reflexivity | ].
  pose proof (discovery_adopts_reported_ceilings
                (service (Some 50) None) None [] _ eq_refl) as H.
  cbv zeta in H. destruct H as (_ & Hp & _ & _ & _ & Ha). split.
  - apply (Hp 50); [reflexivity | reflexivity | lia].
  - apply Ha; reflexivity.
Defined.

Lemma partial_supply_still_discovers_witness :
  let o := Some (MsigsClientOptions.mk (Some 50) None) in
  let cl := service (Some 20) (Some 100) in
  (field o MsigsClientOptions.maxProposalLimit = None
   \/ field o MsigsClientOptions.maxApprovalLimit = None)
  /\ sent (snd (getMaxProposalLimit (fresh cl o))) = [status_request]
  /\ fst (getMaxProposalLimit (fresh cl o)) = returned (Some 50).
Proof.
  cbv zeta.
  pose proof (partial_supply_still_discovers
                (service (Some 20) (Some 100))
                (Some (MsigsClientOptions.mk (Some 50) None)) []
                (or_intror eq_refl)) as H.
  cbv zeta in H. destruct H as (Hs & _ & Hp & _).
  split; [right; reflexivity | ]. split.
  - exact Hs.
  - apply Hp. reflexivity.
Defined.

Lemma currentPage_against_totalPages_witness :
  10 > 0 /\ safe 40 /\ safe 10 /\ safe 50
  /\ PaginationInfo.currentPage (getPaginationInfo 40 10 50 false)
       <= PaginationInfo.totalPages (getPaginationInfo 40 10 50 false)
  /\ PaginationInfo.totalPages (getPaginationInfo 50 10 50 false)
       < PaginationInfo.currentPage (getPaginationInfo 50 10 50 false).
Proof.
  split; [lia | ]. split; [safely | ]. split; [safely | ]. split; [safely | ].
  split.
  - apply (proj1 (currentPage_against_totalPages 40 10 50 false
                    ltac:(lia) ltac:(safely) ltac:(safely) ltac:(safely))).
    lia.
  - apply (proj2 (currentPage_against_totalPages 50 10 50 false
                    ltac:(lia) ltac:(safely) ltac:(safely) ltac:(safely))).
    vm_compute. discriminate.
Defined.

Lemma next_then_previous_witness :
  10 > 0 /\ 0 >= 0 /\ safe 0 /\ safe 10 /\ safe (0 + 10)
  /\ exists next : number,
       PaginationInfo.nextOffset (getPaginationInfo 0 10 50 true) = Some next
       /\ (let p' := getPaginationInfo next 10 50 true in
           PaginationInfo.previousOffset p' = Some 0
           /\ PaginationInfo.hasPrevious p' = true
           /\ PaginationInfo.currentPage p'
                = PaginationInfo.currentPage (getPaginationInfo 0 10 50 true)
                  + 1).
Proof.
  split; [lia | ]. split; [lia | ].
  split; [safely | ]. split; [safely | ]. split; [safely | ].
  apply (next_then_previous 0 10 50 50 true); [lia | lia | safely | safely | safely].
Defined.

Lemma previousOffset_range_witness :
  10 > 0 /\ safe 40 /\ safe 10
  /\ PaginationInfo.previousOffset (getPaginationInfo 40 10 50 false) = Some 30
  /\ 0 <= 30 < 40
  /\ (10 <= 40 -> 30 = 40 - 10)
  /\ (30 = 0 <-> 40 <= 10).
Proof.
  split; [lia | ]. split; [safely | ]. split; [safely | ].
  split; [reflexivity | ].
  apply (previousOffset_range 40 10 50 30 false);
    [lia | safely | safely | reflexivity].
Defined.

Lemma currentPage_sign_witness :
  10 > 0
  /\ (1 <= PaginationInfo.currentPage (getPaginationInfo (-3) 10 50 true)
      <-> 0 <= -3).
Proof.
  split; [lia | ].
  apply (proj1 (currentPage_sign (-3) 10 50 true ltac:(lia))).
Defined.


